(** * python-accounting: Transaction validation, posting and contribution

    A shallow embedding of [python_accounting/models/transaction.py] and of
    the model rows it reads, followed by the properties of the bookkeeping
    core: line-item attachment, the validation sequence, transaction
    numbering, posting and the per-account contribution query.

    Modelling conventions
    - [Decimal] values are exact rationals ([Q]); equalities between amounts
      are stated with [==] ([Qeq]).  The 28-digit context precision of
      Python's [decimal] is not modelled.
    - A naive [datetime] is its microsecond ordinal ([Z]): equality and order
      of naive datetimes are equality and order of the ordinals, and one
      microsecond later is [+ 1].
    - A nullable column or unset attribute is an [option]; Python truthiness
      ([if x], [not x], [x or y]) is written out in module [Py].
    - A method that mutates an object is a function from the state of the
      object to a [result] that carries the state the object is left in,
      whether the call returned or raised. *)

From Stdlib Require Import ZArith QArith List String Ascii Bool Lia.
From Stdlib Require Import DecimalString DecimalN Permutation.
Import ListNotations.

Local Open Scope Z_scope.

(* ------------------------------------------------------------------ *)
(** ** Python values                                                   *)
(* ------------------------------------------------------------------ *)

Module Py.

Definition datetime := Z.
Definition Decimal := Q.

(** Truthiness of [int | None]: [None] and [0] are falsy. *)
Definition truthy_int (x : option Z) : bool :=
  match x with
  | Some n => negb (n =? 0)
  | None => false
  end.

(** Truthiness of [str | None]: [None] and the empty string are falsy. *)
Definition truthy_str (x : option string) : bool :=
  match x with
  | Some s => negb (String.eqb s EmptyString)
  | None => false
  end.

(** Truthiness of [Decimal | None]: [None] and zero are falsy. *)
Definition truthy_decimal (x : option Q) : bool :=
  match x with
  | Some q => negb (Qeq_bool q 0)
  | None => false
  end.

(** Truthiness of [datetime | None]: every datetime object is truthy. *)
Definition truthy_datetime (x : option datetime) : bool :=
  match x with
  | Some _ => true
  | None => false
  end.

(** [a == b] on [int | None]; also what SQLAlchemy's [column == value]
    selects ([== None] compiles to [IS NULL]). *)
Definition eq_int (a b : option Z) : bool :=
  match a, b with
  | Some x, Some y => x =? y
  | None, None => true
  | _, _ => false
  end.

(** [a == b] on [datetime | None]. *)
Definition eq_datetime (a b : option datetime) : bool := eq_int a b.

(** The builtin [sum]: a left fold of [+] that starts from [0]. *)
Definition sum (xs : list Q) : Q := fold_left Qplus xs 0%Q.

(** SQL [SUM(...)] as returned by [.scalar()]: [None] when no row is
    selected. *)
Definition sql_sum (xs : list Q) : option Q :=
  match xs with
  | [] => None
  | _ :: _ => Some (sum xs)
  end.

(** Decimal digits of a non-negative integer. *)
Definition digits (z : Z) : string :=
  NilZero.string_of_uint (N.to_uint (Z.to_N z)).

Fixpoint zeros (n : nat) : string :=
  match n with
  | O => EmptyString
  | S n' => String "0" (zeros n')
  end.

Definition zfill (width : nat) (s : string) : string :=
  (zeros (width - String.length s) ++ s)%string.

(** The format spec [:0w] applied to an [int]: sign-aware zero padding to a
    minimum width of [w] characters. *)
Definition format_0w (width : nat) (z : Z) : string :=
  if z <? 0
  then String "-" (zfill (width - 1) (digits (Z.abs z)))
  else zfill width (digits z).

End Py.

(** A [dict] with string keys, as the list of its items in insertion
    order. *)
Module PyDict.

Definition t (V : Type) : Type := list (string * V).

Fixpoint get {V : Type} (d : t V) (key : string) : option V :=
  match d with
  | [] => None
  | (k, v) :: rest => if String.eqb k key then Some v else get rest key
  end.

(** [key in d.keys()] *)
Definition contains {V : Type} (d : t V) (key : string) : bool :=
  match get d key with
  | Some _ => true
  | None => false
  end.

(** [d[key] = v], also [d.update({key: v})]: the value of a present key is
    replaced where it stands, a new key goes to the end. *)
Fixpoint set {V : Type} (d : t V) (key : string) (v : V) : t V :=
  match d with
  | [] => [(key, v)]
  | (k, v') :: rest =>
      if String.eqb k key then (k, v) :: rest else (k, v') :: set rest key v
  end.

Definition keys {V : Type} (d : t V) : list string := map fst d.

Definition values {V : Type} (d : t V) : list V := map snd d.

End PyDict.

(** [round(x, 2)] of a [Decimal] and the text of the result. *)
Module PyRound.

(** The hundredths of [round(x, 2)]: the nearest multiple of 0.01, a tie
    going to the even one. *)
Definition hundredths (x : Q) : Z :=
  let n := Qnum x * 100 in
  let d := Z.pos (Qden x) in
  let f := n / d in
  let r := n mod d in
  if 2 * r <? d then f
  else if d <? 2 * r then f + 1
  else if Z.even f then f else f + 1.

(** [str(round(x, 2))]: the sign of [x], the integer part, a point and two
    decimals. *)
Definition str_round2 (x : Q) : string :=
  let h := Z.abs (hundredths x) in
  ((if (Qnum x <? 0)%Z then "-" else "")
   ++ Py.digits (h / 100)%Z ++ "."
   ++ Py.zfill 2 (Py.digits (h mod 100)%Z))%string.

End PyRound.

(* ------------------------------------------------------------------ *)
(** ** Model rows read by the Transaction                              *)
(* ------------------------------------------------------------------ *)

Module Account.
Record t := mk {
  id : Z;
  name : string;
  currency_id : Z;
  entity_id : Z
}.
End Account.

Module Tax.
Record t := mk {
  id : Z;
  name : string;
  code : string;
  rate : Q
}.
End Tax.

Module LineItem.
(** [tax] is the relationship behind the [tax_id] foreign key; for a
    persisted line item the two agree, so [tax_id] is read off [tax]. *)
Record t := mk {
  id : option Z;
  narration : string;
  account_id : option Z;
  amount : Q;
  quantity : Q;
  tax : option Tax.t;
  tax_inclusive : bool;
  credited : bool
}.

Definition tax_id (l : t) : option Z := option_map Tax.id (tax l).

(** [l.tax.rate], read only under the guard [l.tax_id]. *)
Definition tax_rate (l : t) : Q :=
  match tax l with
  | Some x => Tax.rate x
  | None => 0%Q
  end.

Definition set_credited (l : t) (c : bool) : t :=
  mk (id l) (narration l) (account_id l) (amount l) (quantity l) (tax l)
     (tax_inclusive l) c.

(** [l.tax.code] and [l.tax.name], read only under the guard [l.tax_id]. *)
Definition tax_code (l : t) : string :=
  match tax l with
  | Some x => Tax.code x
  | None => EmptyString
  end.

Definition tax_name (l : t) : string :=
  match tax l with
  | Some x => Tax.name x
  | None => EmptyString
  end.
End LineItem.

(** The dictionary the [tax] property of a Transaction returns. *)
Module TaxSummary.

(** One value of [taxes]: [dict(name=..., rate=..., amount=...)]. *)
Record line := mk_line {
  name : string;
  rate : string;
  amount : Q
}.

Record t := mk {
  total : Q;
  taxes : PyDict.t line
}.

End TaxSummary.

Module Balance.
Inductive BalanceType := DEBIT | CREDIT.

Definition BalanceType_eqb (a b : BalanceType) : bool :=
  match a, b with
  | DEBIT, DEBIT | CREDIT, CREDIT => true
  | _, _ => false
  end.
End Balance.

Module Ledger.
Record t := mk {
  entity_id : Z;
  transaction_id : option Z;
  currency_id : option Z;
  post_account_id : option Z;
  entry_type : Balance.BalanceType;
  amount : Q
}.
End Ledger.

Module ReportingPeriod.
Inductive Status := OPEN | ADJUSTING | CLOSED.

Definition Status_eqb (a b : Status) : bool :=
  match a, b with
  | OPEN, OPEN | ADJUSTING, ADJUSTING | CLOSED, CLOSED => true
  | _, _ => false
  end.

Record t := mk {
  id : Z;
  calendar_year : Z;
  period_count : Z;
  status : Status
}.

(** The dictionary returned by [interval()]. *)
Record Interval := mk_interval {
  start : Py.datetime;
  end_ : Py.datetime
}.
End ReportingPeriod.

(* ------------------------------------------------------------------ *)
(** ** Exceptions and the outcome of a method call                     *)
(* ------------------------------------------------------------------ *)

(** The builtin exceptions and the members of [python_accounting.exceptions]
    that the Transaction and its collaborators raise, with the arguments they
    are constructed from. *)
Inductive exception :=
| ValueError (message : string)
| TypeError (message : string)
| AdjustingReportingPeriodError (reporting_period : ReportingPeriod.t)
| ClosedReportingPeriodError (reporting_period : ReportingPeriod.t)
| InvalidLineItemAccountError (classname : string) (account_types : list string)
| InvalidMainAccountError (classname : string) (account_type : string)
| InvalidTransactionDateError
| InvalidTransactionTypeError
| MissingLineItemError
| MissingReportingPeriodError
| PostedTransactionError (message : string)
| RedundantTransactionError (line_item : LineItem.t).

(** Outcome of a call on a mutable object of state [S]: the call returns a
    value or raises, and either way leaves the object in some state. *)
Inductive result (S A : Type) : Type :=
| Return (s : S) (a : A)
| Raise (s : S) (e : exception).

Arguments Return {S A} s a.
Arguments Raise {S A} s e.

Definition Method (S A : Type) : Type := S -> result S A.

Definition ret {S A} (a : A) : Method S A := fun s => Return s a.

Definition bind {S A B} (m : Method S A) (k : A -> Method S B) : Method S B :=
  fun s =>
    match m s with
    | Return s' a => k a s'
    | Raise s' e => Raise s' e
    end.

Definition raise {S A} (e : exception) : Method S A := fun s => Raise s e.

Definition get {S} : Method S S := fun s => Return s s.

Definition put {S} (s' : S) : Method S unit := fun _ => Return s' tt.

(** A collaborator that only reads: its exception propagates, the object is
    left as it is. *)
Definition lift {S A} (r : exception + A) : Method S A :=
  match r with
  | inl e => raise e
  | inr a => ret a
  end.

Definition state_of {S A} (r : result S A) : S :=
  match r with
  | Return s _ => s
  | Raise s _ => s
  end.

Definition raised {S A} (r : result S A) : option exception :=
  match r with
  | Return _ _ => None
  | Raise _ e => Some e
  end.

Declare Scope method_scope.
Delimit Scope method_scope with method.

Notation "x <- c1 ;; c2" := (bind c1 (fun x => c2))
  (at level 61, c1 at next level, right associativity) : method_scope.
Notation "c1 ;; c2" := (bind c1 (fun _ => c2))
  (at level 61, right associativity) : method_scope.

(* ------------------------------------------------------------------ *)
(** ** models/transaction.py                                           *)
(* ------------------------------------------------------------------ *)

Module Transaction.

(** [TransactionType] is built from [config.transactions["types"]]; the
    members listed are the ones the sources name. *)
Inductive TransactionType :=
| CASH_SALE
| CLIENT_INVOICE
| CREDIT_NOTE
| CASH_PURCHASE
| SUPPLIER_BILL
| SUPPLIER_PAYMENT
| JOURNAL_ENTRY.

Definition TransactionType_eqb (a b : TransactionType) : bool :=
  match a, b with
  | CASH_SALE, CASH_SALE
  | CLIENT_INVOICE, CLIENT_INVOICE
  | CREDIT_NOTE, CREDIT_NOTE
  | CASH_PURCHASE, CASH_PURCHASE
  | SUPPLIER_BILL, SUPPLIER_BILL
  | SUPPLIER_PAYMENT, SUPPLIER_PAYMENT
  | JOURNAL_ENTRY, JOURNAL_ENTRY => true
  | _, _ => false
  end.

(** The mapped columns and relationships of the class, [entity_id] from
    [IsolatingMixin], and two pieces of instance state the methods read:
    the optional attribute [session_index] and the ORM's record of replaced
    values of [transaction_type]
    ([inspect(self).attrs.transaction_type.history.deleted]). *)
Record t := mk {
  id : option Z;
  entity_id : Z;
  transaction_date : option Py.datetime;
  transaction_no : option string;
  transaction_type : TransactionType;
  narration : string;
  reference : option string;
  main_account_amount : Q;
  credited : bool;
  compound : bool;
  currency_id : option Z;
  account_id : option Z;
  line_items : list LineItem.t;
  ledgers : list Ledger.t;
  session_index : option Z;
  transaction_type_history_deleted : list TransactionType
}.

Definition set_currency_id (self : t) (v : option Z) : t :=
  mk (id self) (entity_id self) (transaction_date self) (transaction_no self)
     (transaction_type self) (narration self) (reference self)
     (main_account_amount self) (credited self) (compound self)
     v (account_id self) (line_items self) (ledgers self)
     (session_index self) (transaction_type_history_deleted self).

Definition set_transaction_no (self : t) (v : option string) : t :=
  mk (id self) (entity_id self) (transaction_date self) v
     (transaction_type self) (narration self) (reference self)
     (main_account_amount self) (credited self) (compound self)
     (currency_id self) (account_id self) (line_items self) (ledgers self)
     (session_index self) (transaction_type_history_deleted self).

Definition set_line_items (self : t) (v : list LineItem.t) : t :=
  mk (id self) (entity_id self) (transaction_date self) (transaction_no self)
     (transaction_type self) (narration self) (reference self)
     (main_account_amount self) (credited self) (compound self)
     (currency_id self) (account_id self) v (ledgers self)
     (session_index self) (transaction_type_history_deleted self).

Definition set_ledgers (self : t) (v : list Ledger.t) : t :=
  mk (id self) (entity_id self) (transaction_date self) (transaction_no self)
     (transaction_type self) (narration self) (reference self)
     (main_account_amount self) (credited self) (compound self)
     (currency_id self) (account_id self) (line_items self) v
     (session_index self) (transaction_type_history_deleted self).

(** The tables of the accounting session that the queries of this module
    read.  [transactions] holds every row, soft-deleted ones included. *)
Record AccountingSession := mk_session {
  accounts : list Account.t;
  transactions : list t;
  ledger : list Ledger.t
}.

Definition set_ledger (session : AccountingSession) (v : list Ledger.t)
  : AccountingSession :=
  mk_session (accounts session) (transactions session) v.

(** [session.get(Account, account_id)] *)
Definition session_get_Account (session : AccountingSession)
  (account_id : option Z) : option Account.t :=
  match account_id with
  | Some i => find (fun a => Account.id a =? i) (accounts session)
  | None => None
  end.

Section Methods.

Local Open Scope method_scope.
Local Open Scope string_scope.

(** Code of the repository outside the sources at hand, taken as
    parameters:
    - the line-item hook a subclass may define ([None] when the object
      has no attribute [_validate_subclass_line_items]); it returns the
      exception it raises, if any;
    - [ReportingPeriod.get_period] and [ReportingPeriod.interval];
    - the [transaction_no_prefix] entries of
      [config.transactions["types"]]. *)
Variable _validate_subclass_line_items :
  option (t -> LineItem.t -> option exception).
Variable get_period :
  AccountingSession -> option Py.datetime -> exception + ReportingPeriod.t.
Variable interval : ReportingPeriod.t -> ReportingPeriod.Interval.
Variable transaction_no_prefix : TransactionType -> string.

Definition is_posted (self : t) : bool :=
  (0 <? Z.of_nat (List.length (ledgers self)))%Z.

(** The [@validates("line_items", include_removes=True)] hook.  The
    object it may mutate is the line item, which is the state here. *)
Definition validate_line_items (self : t) (key : string)
  (is_remove : bool) : Method LineItem.t LineItem.t :=
  line_item <- get ;;
  match _validate_subclass_line_items with
  | Some hook =>
      match hook self line_item with
      | Some e => raise e
      | None => ret tt
      end
  | None => ret tt
  end ;;
  if is_posted self then
    raise (PostedTransactionError
             ("Cannot " ++ (if is_remove then "Remove" else "Add")
              ++ " Line Items from a Posted Transaction."))
  else if match LineItem.id line_item with None => true | Some _ => false end
  then
    raise (ValueError
             "Line Item must be persisted to be added to the Transaction.")
  else
    (if negb (compound self)
        && Bool.eqb (LineItem.credited line_item) (credited self)
     then put (LineItem.set_credited line_item (negb (credited self)))
     else ret tt) ;;
    line_item' <- get ;;
    ret line_item'.

(** [self.line_items.add(line_item)]: the instrumented collection calls
    the validator and stores the object it returns; when the validator
    raises, nothing is stored.  The state is the pair of the two
    objects. *)
Definition line_items_add : Method (t * LineItem.t) unit :=
  fun '(self, line_item) =>
    match validate_line_items self "line_items" false line_item with
    | Return line_item' stored =>
        Return (set_line_items self (line_items self ++ [stored]),
                line_item') tt
    | Raise line_item' e => Raise (self, line_item') e
    end.

(** The [@validates("ledgers", include_removes=True)] hook. *)
Definition validate_ledgers (self : t) (key : string) (is_remove : bool)
  : Method Ledger.t Ledger.t :=
  raise (ValueError
           ("Transaction ledgers cannot be "
            ++ (if is_remove then "Removed" else "Added")
            ++ " manually.")).

(** The body of the loop of the [tax] property: the tax of a line item
    with a [tax_id] goes to [total] and to the entry of its tax code, which
    is created at the first line item of that code. *)
Definition tax_step (acc : TaxSummary.t) (line_item : LineItem.t)
  : TaxSummary.t :=
  if Py.truthy_int (LineItem.tax_id line_item) then
    let amount :=
      (LineItem.tax_rate line_item * LineItem.amount line_item
       * LineItem.quantity line_item / 100)%Q in
    let total := (TaxSummary.total acc + amount)%Q in
    let taxes := TaxSummary.taxes acc in
    let code := LineItem.tax_code line_item in
    match PyDict.get taxes code with
    | Some entry =>
        (* [code in taxes.keys()]: [taxes[code]["amount"] += amount] *)
        TaxSummary.mk total
          (PyDict.set taxes code
             (TaxSummary.mk_line (TaxSummary.name entry)
                (TaxSummary.rate entry)
                (TaxSummary.amount entry + amount)%Q))
    | None =>
        TaxSummary.mk total
          (PyDict.set taxes code
             (TaxSummary.mk_line (LineItem.tax_name line_item)
                (PyRound.str_round2 (LineItem.tax_rate line_item) ++ "%")
                amount))
    end
  else acc.

(** The [tax] property. *)
Definition tax (self : t) : TaxSummary.t :=
  fold_left tax_step (line_items self) (TaxSummary.mk 0 []).

Definition amount (self : t) : Q :=
  Py.sum
    (map
       (fun l =>
          (LineItem.amount l * LineItem.quantity l
           + (if Py.truthy_int (LineItem.tax_id l)
                 && negb (LineItem.tax_inclusive l)
              then LineItem.amount l * LineItem.quantity l
                   * LineItem.tax_rate l / 100
              else 0))%Q)
       (filter
          (fun l => negb (Bool.eqb (LineItem.credited l) (credited self)))
          (line_items self))).

Definition _get_main_account (session : AccountingSession)
  : Method t Account.t :=
  self <- get ;;
  match session_get_Account session (account_id self) with
  | Some account => ret account
  | None => raise (ValueError "The main Account is required")
  end.

Definition _transaction_no (self : t) (session : AccountingSession)
  (transaction_type : TransactionType)
  (reporting_period : ReportingPeriod.t) : string :=
  let next_id :=
    (Z.of_nat
       (List.length
          (filter
             (fun row =>
                TransactionType_eqb (Transaction.transaction_type row)
                                    transaction_type
                && match transaction_date row with
                   | Some d =>
                       (ReportingPeriod.start (interval reporting_period) <? d)%Z
                   | None => false
                   end
                && (entity_id row =? entity_id self)%Z)
             (transactions session)))
     + match session_index self with
       | Some i => i
       | None => 1
       end)%Z in
  let prefix := transaction_no_prefix transaction_type in
  prefix
  ++ Py.format_0w 2 (ReportingPeriod.period_count reporting_period)
  ++ "/" ++ Py.format_0w 4 next_id.

(** The amount a line item carries to the ledger: [amount * quantity],
    with the tax added when the line item has a tax that is not already
    included. *)
Definition line_item_total (l : LineItem.t) : Q :=
  (LineItem.amount l * LineItem.quantity l
   + (if Py.truthy_int (LineItem.tax_id l)
         && negb (LineItem.tax_inclusive l)
      then LineItem.amount l * LineItem.quantity l
           * LineItem.tax_rate l / 100
      else 0))%Q.

Definition side (credited : bool) : Balance.BalanceType :=
  if credited then Balance.CREDIT else Balance.DEBIT.

(** Modelled from the spec: [Ledger.post] ([models/ledger.py] is not
    among the sources).  Section 4.3: for each line item a matched pair
    of Ledger entries, one on the line item's account and side, one on
    the main account and the opposite side, each carrying the line
    item's tax-inclusive amount where applicable. *)
Definition Ledger_post (self : t) : list Ledger.t :=
  flat_map
    (fun l =>
       [ Ledger.mk (entity_id self) (id self) (currency_id self)
           (LineItem.account_id l) (side (LineItem.credited l))
           (line_item_total l);
         Ledger.mk (entity_id self) (id self) (currency_id self)
           (account_id self) (side (negb (LineItem.credited l)))
           (line_item_total l) ])
    (line_items self).

(** [post]: the state is the session together with the Transaction.
    [session.flush()] is persistence mechanics and changes neither; the
    entries [Ledger.post] creates join the ledger table and the
    [ledgers] relationship of the Transaction. *)
Definition post : Method (AccountingSession * t) unit :=
  fun '(session, self) =>
    match line_items self with
    | [] => Raise (session, self) MissingLineItemError
    | _ :: _ =>
        let entries := Ledger_post self in
        Return (set_ledger session (ledger session ++ entries),
                set_ledgers self (ledgers self ++ entries)) tt
    end.

(** The rows selected by [query.filter(Ledger.entry_type == entry_type)]
    in [contribution]. *)
Definition contribution_query (self : t) (session : AccountingSession)
  (account : Account.t) (entry_type : Balance.BalanceType) : option Q :=
  Py.sql_sum
    (map Ledger.amount
       (filter
          (fun row =>
             (Ledger.entity_id row =? entity_id self)%Z
             && Py.eq_int (Ledger.transaction_id row) (id self)
             && Py.eq_int (Ledger.currency_id row) (currency_id self)
             && Py.eq_int (Ledger.post_account_id row)
                          (Some (Account.id account))
             && Balance.BalanceType_eqb (Ledger.entry_type row) entry_type)
          (ledger session))).

(** The returned expression parses as
    [debit or ((0 - credit) or 0)]: binary [-] binds tighter than [or].
    [0 - None] raises [TypeError]. *)
Definition contribution (self : t) (session : AccountingSession)
  (account : Account.t) : exception + Q :=
  let debit := contribution_query self session account Balance.DEBIT in
  let credit := contribution_query self session account Balance.CREDIT in
  let right_operand : exception + Q :=
    match credit with
    | None =>
        inl (TypeError
               "unsupported operand type(s) for -: 'int' and 'NoneType'")
    | Some c =>
        let negated := (0 - c)%Q in
        if Py.truthy_decimal (Some negated) then inr negated else inr 0%Q
    end in
  match debit with
  | Some d => if Py.truthy_decimal debit then inr d else right_operand
  | None => right_operand
  end.

Fixpoint check_redundant (account_id : option Z)
  (items : list LineItem.t) : Method t unit :=
  match items with
  | [] => ret tt
  | line_item :: rest =>
      if Py.eq_int (LineItem.account_id line_item) account_id
      then raise (RedundantTransactionError line_item)
      else check_redundant account_id rest
  end.

Definition validate (session : AccountingSession) : Method t unit :=
  self <- get ;;
  if is_posted self then
    raise (PostedTransactionError "A Posted Transaction cannot be modified.")
  else
    account <- _get_main_account session ;;
    reporting_period <- lift (get_period session (transaction_date self)) ;;
    put (set_currency_id self (Some (Account.currency_id account))) ;;
    if ReportingPeriod.Status_eqb (ReportingPeriod.status reporting_period)
                                  ReportingPeriod.CLOSED
    then raise (ClosedReportingPeriodError reporting_period)
    else if ReportingPeriod.Status_eqb
              (ReportingPeriod.status reporting_period)
              ReportingPeriod.ADJUSTING
            && negb (TransactionType_eqb (transaction_type self) JOURNAL_ENTRY)
    then raise (AdjustingReportingPeriodError reporting_period)
    else if Py.truthy_datetime (transaction_date self)
            && Py.eq_datetime (transaction_date self)
                 (Some (ReportingPeriod.start (interval reporting_period)))
    then raise InvalidTransactionDateError
    else if Py.truthy_int (id self)
            && (0 <? Z.of_nat
                       (List.length (transaction_type_history_deleted self)))%Z
    then raise InvalidTransactionTypeError
    else
      (if negb (Py.truthy_str (transaction_no self))
       then
         self' <- get ;;
         put (set_transaction_no self'
                (Some (_transaction_no self' session
                         (transaction_type self') reporting_period)))
       else ret tt) ;;
      self' <- get ;;
      check_redundant (account_id self') (line_items self').

Definition validate_delete (_session : AccountingSession)
  : Method t unit :=
  self <- get ;;
  if is_posted self then
    raise (PostedTransactionError "A Posted Transaction cannot be deleted.")
  else ret tt.

End Methods.

End Transaction.

(* ------------------------------------------------------------------ *)
(** ** reports/financial_statement.py                                  *)
(* ------------------------------------------------------------------ *)

Module FinancialStatement.

Local Open Scope string_scope.

(** One entry of [configuration.reports[config]["sections"]]. *)
Record SectionConfig := mk_section {
  label : string;
  account_types : list string
}.

(** [configuration.reports[config]]. *)
Record ReportConfig := mk_config {
  config_title : string;
  config_sections : PyDict.t SectionConfig;
  config_results : PyDict.t string
}.

(** What the methods raise: a lookup of a missing key, an operation a value
    does not support, or the exception of a collaborator. *)
Inductive error :=
| KeyError (key : string)
| TypeError
| Raised (e : exception).

(** A value of [self.balances]: the per-account-type dictionary of a
    section, or the number under ["debit"] and ["credit"]. *)
Inductive entry :=
| Breakdown (by_type : PyDict.t Q)
| Amount (q : Q).

(** The members of [StrEnum(name, items)] in iteration order, as
    (name, value) pairs: an item whose value an earlier item already has is
    an alias and is not iterated.  The names are taken to be ones [Enum]
    accepts. *)
Fixpoint enum_members (seen : list string) (items : list (string * string))
  : list (string * string) :=
  match items with
  | [] => []
  | (name, value) :: rest =>
      if existsb (String.eqb value) seen
      then enum_members seen rest
      else (name, value) :: enum_members (value :: seen) rest
  end.

(** [{k: v for k in names}] *)
Definition dict_of {V : Type} (names : list string) (v : V) : PyDict.t V :=
  fold_left (fun d k => PyDict.set d k v) names [].

Section Statement.

(** The per-category detail of [Account.section_balances], which the
    statement stores and does not inspect. *)
Variable Categories : Type.

(** The dictionary [Account.section_balances] returns. *)
Record SectionBalances := mk_balances {
  closing : Q;
  categories : Categories
}.

(** Code of the repository outside the sources at hand, taken as
    parameters: [Account.section_balances] and the lookup
    [Account.AccountType[name].value] ([None] when the name is not a member,
    which raises KeyError). *)
Variable section_balances :
  Transaction.AccountingSession -> list string -> option Py.datetime
  -> option Py.datetime -> bool -> exception + SectionBalances.
Variable AccountType_value : string -> option string.

Record t := mk {
  session : Transaction.AccountingSession;
  title : string;
  sections : list (string * string);
  results : list (string * string);
  section_names : list string;
  accounts : PyDict.t (PyDict.t Categories);
  balances : PyDict.t entry;
  totals : PyDict.t Q;
  result_amounts : PyDict.t Q
}.

Definition set_accounts (self : t) (v : PyDict.t (PyDict.t Categories)) : t :=
  mk (session self) (title self) (sections self) (results self)
     (section_names self) v (balances self) (totals self)
     (result_amounts self).

Definition set_balances (self : t) (v : PyDict.t entry) : t :=
  mk (session self) (title self) (sections self) (results self)
     (section_names self) (accounts self) v (totals self)
     (result_amounts self).

Definition set_totals (self : t) (v : PyDict.t Q) : t :=
  mk (session self) (title self) (sections self) (results self)
     (section_names self) (accounts self) (balances self) v
     (result_amounts self).

(** Outcome of a method of the statement, with the state it leaves. *)
Inductive outcome :=
| Done (self : t)
| Failed (self : t) (e : error).

Definition __init__ (session : Transaction.AccountingSession)
  (config : ReportConfig) : t :=
  let sections :=
    enum_members []
      (map (fun item => (fst item, label (snd item)))
         (config_sections config)) in
  let results := enum_members [] (config_results config) in
  let section_names := map fst sections in
  mk session (config_title config) sections results section_names
     (dict_of section_names [])
     (PyDict.set
        (PyDict.set (dict_of section_names (Breakdown [])) "debit"
           (Amount 0))
        "credit" (Amount 0))
     (dict_of section_names 0%Q)
     [].

(** The body of the inner loop of [_get_sections], for one account type of
    one section. *)
Definition visit (start_date end_date : option Py.datetime)
  (full_balance : bool) (section account_type : string) (self : t)
  : outcome :=
  match section_balances (session self) [account_type] start_date end_date
          full_balance with
  | inl e => Failed self (Raised e)
  | inr found =>
      match AccountType_value account_type with
      | None => Failed self (KeyError account_type)
      | Some account_type =>
          if negb (Qeq_bool (closing found) 0) then
            match PyDict.get (accounts self) section with
            | None => Failed self (KeyError section)
            | Some by_type =>
                let self1 :=
                  set_accounts self
                    (PyDict.set (accounts self) section
                       (PyDict.set by_type account_type (categories found))) in
                match PyDict.get (balances self1) section with
                | None => Failed self1 (KeyError section)
                | Some (Amount _) => Failed self1 TypeError
                | Some (Breakdown by_type) =>
                    let self2 :=
                      set_balances self1
                        (PyDict.set (balances self1) section
                           (Breakdown
                              (PyDict.set by_type account_type
                                 (closing found)))) in
                    match PyDict.get (totals self2) section with
                    | None => Failed self2 (KeyError section)
                    | Some total =>
                        let self3 :=
                          set_totals self2
                            (PyDict.set (totals self2) section
                               (total + closing found)%Q) in
                        let side :=
                          if Qle_bool 0 (closing found)
                          then "debit" else "credit" in
                        match PyDict.get (balances self3) side with
                        | None => Failed self3 (KeyError side)
                        | Some (Breakdown _) => Failed self3 TypeError
                        | Some (Amount amount) =>
                            Done
                              (set_balances self3
                                 (PyDict.set (balances self3) side
                                    (Amount (amount + closing found)%Q)))
                        end
                    end
                end
            end
          else Done self
      end
  end.

(** The inner loop: the account types of one section, in order, until one
    fails. *)
Fixpoint visit_section (start_date end_date : option Py.datetime)
  (full_balance : bool) (section : string) (types : list string) (self : t)
  : outcome :=
  match types with
  | [] => Done self
  | account_type :: rest =>
      match visit start_date end_date full_balance section account_type
              self with
      | Done self' =>
          visit_section start_date end_date full_balance section rest self'
      | Failed self' e => Failed self' e
      end
  end.

(** The outer loop, over the items of the configured sections. *)
Fixpoint visit_sections (start_date end_date : option Py.datetime)
  (full_balance : bool) (items : list (string * SectionConfig)) (self : t)
  : outcome :=
  match items with
  | [] => Done self
  | (section, content) :: rest =>
      match visit_section start_date end_date full_balance section
              (account_types content) self with
      | Done self' =>
          visit_sections start_date end_date full_balance rest self'
      | Failed self' e => Failed self' e
      end
  end.

Definition _get_sections (config : ReportConfig)
  (start_date end_date : option Py.datetime) (full_balance : bool) (self : t)
  : outcome :=
  visit_sections start_date end_date full_balance (config_sections config)
    self.

End Statement.

End FinancialStatement.

(* ------------------------------------------------------------------ *)
(** ** Notions the properties are stated with                          *)
(* ------------------------------------------------------------------ *)

(** Total of the entries of one side among a list of Ledger rows. *)
Definition entry_total (entry_type : Balance.BalanceType)
  (rows : list Ledger.t) : Q :=
  Py.sum
    (map Ledger.amount
       (filter
          (fun row => Balance.BalanceType_eqb (Ledger.entry_type row) entry_type)
          rows)).

(** The rows of one side among a list of Ledger rows. *)
Definition entries_of (entry_type : Balance.BalanceType)
  (rows : list Ledger.t) : list Ledger.t :=
  filter
    (fun row => Balance.BalanceType_eqb (Ledger.entry_type row) entry_type)
    rows.

(** The double-entry invariant of a batch of Ledger rows. *)
Definition balanced (rows : list Ledger.t) : Prop :=
  (entry_total Balance.DEBIT rows == entry_total Balance.CREDIT rows)%Q.

(** The rows a Transaction posted to an account: the rows [contribution]
    queries, of either side. *)
Definition posted_to (self : Transaction.t)
  (session : Transaction.AccountingSession) (account : Account.t)
  : list Ledger.t :=
  filter
    (fun row =>
       (Ledger.entity_id row =? Transaction.entity_id self)
       && Py.eq_int (Ledger.transaction_id row) (Transaction.id self)
       && Py.eq_int (Ledger.currency_id row) (Transaction.currency_id self)
       && Py.eq_int (Ledger.post_account_id row) (Some (Account.id account)))
    (Transaction.ledger session).

(** The net signed amount of section 4.3, in the words of the spec: the sum
    of the DEBIT amounts posted to the account minus the sum of the CREDIT
    amounts posted to it. *)
Definition net_posted (self : Transaction.t)
  (session : Transaction.AccountingSession) (account : Account.t) : Q :=
  (entry_total Balance.DEBIT (posted_to self session account)
   - entry_total Balance.CREDIT (posted_to self session account))%Q.

(** What one line item adds to the amount of a Transaction, in the words of
    the data model: [quantity * amount], plus the tax when the line item has
    a tax and is not tax inclusive. *)
Definition line_item_share (l : LineItem.t) : Q :=
  if Py.truthy_int (LineItem.tax_id l) && negb (LineItem.tax_inclusive l)
  then (LineItem.quantity l * LineItem.amount l
        + LineItem.amount l * LineItem.quantity l * LineItem.tax_rate l / 100)%Q
  else (LineItem.quantity l * LineItem.amount l)%Q.

(** The amount of section 3: the shares of exactly the line items whose
    [credited] flag differs from the flag of the Transaction. *)
Fixpoint amount_spec (credited : bool) (items : list LineItem.t) : Q :=
  match items with
  | [] => 0%Q
  | l :: rest =>
      if Bool.eqb (LineItem.credited l) credited
      then amount_spec credited rest
      else (line_item_share l + amount_spec credited rest)%Q
  end.

(** The Transaction as [validate] leaves it once the period checks are
    behind: currency taken from the main account, number assigned when it
    was missing. *)
Definition validated
  (interval : ReportingPeriod.t -> ReportingPeriod.Interval)
  (transaction_no_prefix : Transaction.TransactionType -> string)
  (session : Transaction.AccountingSession)
  (self : Transaction.t) (account : Account.t) (p : ReportingPeriod.t)
  : Transaction.t :=
  let self1 :=
    Transaction.set_currency_id self (Some (Account.currency_id account)) in
  if Py.truthy_str (Transaction.transaction_no self)
  then self1
  else Transaction.set_transaction_no self1
         (Some (Transaction._transaction_no interval transaction_no_prefix
                  self1 session (Transaction.transaction_type self) p)).

(** The checks between the period lookup and the numbering, as one
    condition. *)
Definition period_admits
  (interval : ReportingPeriod.t -> ReportingPeriod.Interval)
  (self : Transaction.t) (p : ReportingPeriod.t) : Prop :=
  ReportingPeriod.status p <> ReportingPeriod.CLOSED
  /\ (ReportingPeriod.status p = ReportingPeriod.ADJUSTING ->
      Transaction.transaction_type self = Transaction.JOURNAL_ENTRY)
  /\ Transaction.transaction_date self
     <> Some (ReportingPeriod.start (interval p))
  /\ (Py.truthy_int (Transaction.id self) = true ->
      Transaction.transaction_type_history_deleted self = []).

(** The rows the query of [_transaction_no] counts: same transaction type,
    dated after the start of the period, same entity. *)
Definition counted
  (interval : ReportingPeriod.t -> ReportingPeriod.Interval)
  (self : Transaction.t) (transaction_type : Transaction.TransactionType)
  (p : ReportingPeriod.t) (row : Transaction.t) : bool :=
  Transaction.TransactionType_eqb (Transaction.transaction_type row)
    transaction_type
  && match Transaction.transaction_date row with
     | Some d => ReportingPeriod.start (interval p) <? d
     | None => false
     end
  && (Transaction.entity_id row =? Transaction.entity_id self).

Definition count_stored
  (interval : ReportingPeriod.t -> ReportingPeriod.Interval)
  (self : Transaction.t) (transaction_type : Transaction.TransactionType)
  (p : ReportingPeriod.t) (session : Transaction.AccountingSession) : Z :=
  Z.of_nat
    (List.length
       (filter (counted interval self transaction_type p)
          (Transaction.transactions session))).

(** [getattr(self, "session_index", 1)] *)
Definition session_index_or_1 (self : Transaction.t) : Z :=
  match Transaction.session_index self with
  | Some i => i
  | None => 1
  end.

Definition set_session_index (self : Transaction.t) (v : option Z)
  : Transaction.t :=
  Transaction.mk (Transaction.id self) (Transaction.entity_id self)
    (Transaction.transaction_date self) (Transaction.transaction_no self)
    (Transaction.transaction_type self) (Transaction.narration self)
    (Transaction.reference self) (Transaction.main_account_amount self)
    (Transaction.credited self) (Transaction.compound self)
    (Transaction.currency_id self) (Transaction.account_id self)
    (Transaction.line_items self) (Transaction.ledgers self) v
    (Transaction.transaction_type_history_deleted self).

Definition set_transactions (session : Transaction.AccountingSession)
  (rows : list Transaction.t) : Transaction.AccountingSession :=
  Transaction.mk_session (Transaction.accounts session) rows
    (Transaction.ledger session).

(** [int(s)] on a string of decimal digits. *)
Definition int_of_digits (s : string) : option Z :=
  option_map (fun d => Z.of_N (N.of_uint d)) (NilEmpty.uint_of_string s).



(** The total a statement holds for a section, and the number it holds
    under ["debit"] or ["credit"]; 0 where there is none. *)
Definition total_at {Categories : Type}
  (self : FinancialStatement.t Categories) (section : string) : Q :=
  match PyDict.get (FinancialStatement.totals Categories self) section with
  | Some total => total
  | None => 0%Q
  end.

Definition side_at {Categories : Type}
  (self : FinancialStatement.t Categories) (side : string) : Q :=
  match PyDict.get (FinancialStatement.balances Categories self) side with
  | Some (FinancialStatement.Amount q) => q
  | _ => 0%Q
  end.

(** The part of a closing balance that goes to ["debit"], and the part that
    goes to ["credit"]. *)
Definition debit_part (closing : Q) : Q :=
  if Qle_bool 0 closing then closing else 0%Q.

Definition credit_part (closing : Q) : Q :=
  if Qle_bool 0 closing then 0%Q else closing.

(** The account types of every configured section, in the order
    [_get_sections] visits them. *)
Definition all_account_types (config : FinancialStatement.ReportConfig)
  : list string :=
  flat_map (fun item => FinancialStatement.account_types (snd item))
    (FinancialStatement.config_sections config).

(** A report configuration the statement can be built from without losing a
    section: the section names are distinct (they are the keys of a
    dictionary), so are their labels, and none is ["debit"] or
    ["credit"]. *)
Definition well_formed (config : FinancialStatement.ReportConfig) : Prop :=
  NoDup (PyDict.keys (FinancialStatement.config_sections config))
  /\ NoDup
       (map (fun item => FinancialStatement.label (snd item))
          (FinancialStatement.config_sections config))
  /\ ~ In "debit"%string
         (PyDict.keys (FinancialStatement.config_sections config))
  /\ ~ In "credit"%string
         (PyDict.keys (FinancialStatement.config_sections config)).

(** A statement whose dictionaries hold what [_get_sections] looks up for
    the sections [names]: a dictionary under each of them in [accounts] and
    [balances], a total under each of them, and a number under ["debit"]
    and under ["credit"]. *)
Definition ready {Categories : Type} (names : list string)
  (self : FinancialStatement.t Categories) : Prop :=
  (forall section,
      In section names ->
      (exists by_type,
          PyDict.get (FinancialStatement.accounts Categories self) section
          = Some by_type)
      /\ (exists by_type,
             PyDict.get (FinancialStatement.balances Categories self) section
             = Some (FinancialStatement.Breakdown by_type))
      /\ (exists total,
             PyDict.get (FinancialStatement.totals Categories self) section
             = Some total))
  /\ (exists debit,
         PyDict.get (FinancialStatement.balances Categories self)
           "debit"%string = Some (FinancialStatement.Amount debit))
  /\ (exists credit,
         PyDict.get (FinancialStatement.balances Categories self)
           "credit"%string = Some (FinancialStatement.Amount credit)).

(** Every line item sits on the side opposite to the main account. *)
Definition opposite_side (self : Transaction.t) : Prop :=
  Forall
    (fun l => LineItem.credited l = negb (Transaction.credited self))
    (Transaction.line_items self).

Section Lifecycle.

Variable _validate_subclass_line_items :
  option (Transaction.t -> LineItem.t -> option exception).
Variable get_period :
  Transaction.AccountingSession -> option Py.datetime
  -> exception + ReportingPeriod.t.
Variable interval : ReportingPeriod.t -> ReportingPeriod.Interval.
Variable transaction_no_prefix : Transaction.TransactionType -> string.

(** One call on a Transaction, whatever its outcome: the state the object
    is left in. *)
Inductive step : Transaction.t -> Transaction.t -> Prop :=
| step_validate session self :
    step self
      (state_of
         (Transaction.validate get_period interval transaction_no_prefix
            session self))
| step_validate_delete session self :
    step self (state_of (Transaction.validate_delete session self))
| step_line_items_add self line_item :
    step self
      (fst (state_of
              (Transaction.line_items_add _validate_subclass_line_items
                 (self, line_item))))
| step_post session self :
    step self (snd (state_of (Transaction.post (session, self)))).

(** The Transactions the lifecycle of section 3 produces: created without
    Ledger rows (the [ledgers] relationship refuses manual additions) and
    without line items (they arrive through the attach hook), then changed
    only through the calls above. *)
Inductive lifecycle : Transaction.t -> Prop :=
| created self :
    Transaction.ledgers self = [] ->
    Transaction.line_items self = [] ->
    lifecycle self
| evolved self self' :
    lifecycle self -> step self self' -> lifecycle self'.

End Lifecycle.

(* ------------------------------------------------------------------ *)
(** ** Sample books                                                    *)
(* ------------------------------------------------------------------ *)

Module Sample.

Local Open Scope string_scope.

Definition bank : Account.t := Account.mk 1 "Bank" 7 1.
Definition revenue : Account.t := Account.mk 2 "Revenue" 7 1.
Definition suspense : Account.t := Account.mk 3 "Suspense" 7 1.

Definition output_vat : Tax.t := Tax.mk 1 "Output Vat" "OTPT" 10.

(** Periods of two calendar years; a datetime below [1000] belongs to the
    first, any other to the second. *)
Definition period_2024 (status : ReportingPeriod.Status) : ReportingPeriod.t :=
  ReportingPeriod.mk 1 2024 1 status.
Definition period_2025 : ReportingPeriod.t :=
  ReportingPeriod.mk 2 2025 2 ReportingPeriod.OPEN.

Definition get_period (status_2024 : ReportingPeriod.Status)
  (_ : Transaction.AccountingSession) (date : option Py.datetime)
  : exception + ReportingPeriod.t :=
  match date with
  | None => inl MissingReportingPeriodError
  | Some d =>
      if (d <? 0)%Z then inl MissingReportingPeriodError
      else if (d <? 1000)%Z then inr (period_2024 status_2024)
      else inr period_2025
  end.

Definition interval (p : ReportingPeriod.t) : ReportingPeriod.Interval :=
  if (ReportingPeriod.calendar_year p =? 2024)%Z
  then ReportingPeriod.mk_interval 0 999
  else ReportingPeriod.mk_interval 1000 1999.

Definition transaction_no_prefix (ty : Transaction.TransactionType)
  : string :=
  match ty with
  | Transaction.CASH_SALE => "CS"
  | Transaction.CLIENT_INVOICE => "IN"
  | Transaction.CREDIT_NOTE => "CN"
  | Transaction.CASH_PURCHASE => "CP"
  | Transaction.SUPPLIER_BILL => "BL"
  | Transaction.SUPPLIER_PAYMENT => "PY"
  | Transaction.JOURNAL_ENTRY => "JN"
  end.

(** A subclass hook that refuses every line item, the way a trading
    Transaction refuses a line item whose account type it does not
    allow. *)
Definition refusing_hook (_ : Transaction.t) (_ : LineItem.t)
  : option exception :=
  Some (InvalidLineItemAccountError "CashSale" ["Operating Revenue"]).

Definition session : Transaction.AccountingSession :=
  Transaction.mk_session [bank; revenue; suspense] [] [].

(** The revenue line of the income-statement fixture: 200 taxed at 10%. *)
Definition sale_line : LineItem.t :=
  LineItem.mk (Some 5) "Test line item one" (Some 2) 200 1
    (Some output_vat) false false.

Definition unsaved_line : LineItem.t :=
  LineItem.mk None "Not flushed" (Some 2) 200 1 None false false.

(** A cash sale on the bank account. *)
Definition cash_sale_on (date : Py.datetime) : Transaction.t :=
  Transaction.mk (Some 3) 1 (Some date) None Transaction.CASH_SALE
    "Test cash sale" None 0 false false None (Some 1) [] [] None [].

(** Dated inside the first period, and at its very start. *)
Definition cash_sale : Transaction.t := cash_sale_on 100.
Definition opening_cash_sale : Transaction.t := cash_sale_on 0.

Definition journal_entry (date : Py.datetime) : Transaction.t :=
  Transaction.mk (Some 4) 1 (Some date) None Transaction.JOURNAL_ENTRY
    "Adjustment" None 0 true false None (Some 3) [] [] None [].

(** The cash sale with its line attached, before and after posting. *)
Definition cash_sale_with_line : Transaction.t :=
  fst (state_of (Transaction.line_items_add None (cash_sale, sale_line))).

Definition posted_cash_sale : Transaction.t :=
  snd (state_of (Transaction.post (session, cash_sale_with_line))).

(** A cash sale whose main account was never set. *)
Definition orphan_sale : Transaction.t :=
  Transaction.mk None 1 (Some 100) None Transaction.CASH_SALE
    "No main account" None 0 false false None None [] [] None [].

(** A cash sale that already carries a number. *)
Definition numbered_sale : Transaction.t :=
  Transaction.set_transaction_no cash_sale (Some "CS01/0007").

(** A session whose only Transaction row is a journal entry of the second
    period. *)
Definition session_next_year : Transaction.AccountingSession :=
  Transaction.mk_session [bank; revenue; suspense] [journal_entry 1500] [].

(** Ledger rows of a compound journal entry (id 9, currency 7) that debits
    the suspense account 100 and credits it 30, against the bank. *)
Definition compound_entry : Transaction.t :=
  Transaction.mk (Some 9) 1 (Some 100) (Some "JN01/0001")
    Transaction.JOURNAL_ENTRY "Compound" None 70 true true (Some 7)
    (Some 1) [] [] None [].

Definition compound_rows : list Ledger.t :=
  [ Ledger.mk 1 (Some 9) (Some 7) (Some 3) Balance.DEBIT 100;
    Ledger.mk 1 (Some 9) (Some 7) (Some 1) Balance.CREDIT 100;
    Ledger.mk 1 (Some 9) (Some 7) (Some 3) Balance.CREDIT 30;
    Ledger.mk 1 (Some 9) (Some 7) (Some 1) Balance.DEBIT 30 ].

Definition compound_session : Transaction.AccountingSession :=
  Transaction.mk_session [bank; revenue; suspense] [compound_entry]
    compound_rows.

(** A line on the bank account, and the cash sale (on the bank account)
    carrying it. *)
Definition bank_line : LineItem.t :=
  LineItem.mk (Some 6) "On the main account" (Some 1) 50 1 None false true.

Definition redundant_sale : Transaction.t :=
  Transaction.set_line_items cash_sale
    [LineItem.set_credited sale_line true; bank_line].

(** A persisted cash sale whose transaction type was a client invoice. *)
Definition retyped_sale : Transaction.t :=
  Transaction.mk (Some 3) 1 (Some 100) None Transaction.CASH_SALE
    "Test cash sale" None 0 false false None (Some 1) [] [] None
    [Transaction.CLIENT_INVOICE].

(** A report of two sections, as the income statement configures them,
    and the closing balances of the income-statement fixture. *)
Definition report : FinancialStatement.ReportConfig :=
  FinancialStatement.mk_config "Income Statement"
    [ ("OPERATING_REVENUES",
       FinancialStatement.mk_section "Operating Revenues"
         ["OPERATING_REVENUE"]);
      ("NON_OPERATING_EXPENSES",
       FinancialStatement.mk_section "Non Operating Expenses"
         ["DIRECT_EXPENSE"; "OVERHEAD_EXPENSE"; "OTHER_EXPENSE"]) ]
    [ ("GROSS_PROFIT", "Gross Profit"); ("NET_PROFIT", "Net Profit") ].

Definition report_found (account_type : string)
  : FinancialStatement.SectionBalances unit :=
  FinancialStatement.mk_balances unit
    (if String.eqb account_type "OPERATING_REVENUE" then -220
     else if String.eqb account_type "DIRECT_EXPENSE" then 65
     else if String.eqb account_type "OVERHEAD_EXPENSE" then 40
     else 0)
    tt.

Definition report_section_balances (_ : Transaction.AccountingSession)
  (account_types : list string) (_ _ : option Py.datetime) (_ : bool)
  : exception + FinancialStatement.SectionBalances unit :=
  inr (report_found (hd "" account_types)).

Definition report_account_type_value (name : string) : option string :=
  if String.eqb name "OPERATING_REVENUE" then Some "Operating Revenue"
  else if String.eqb name "DIRECT_EXPENSE" then Some "Direct Expense"
  else if String.eqb name "OVERHEAD_EXPENSE" then Some "Overhead Expense"
  else if String.eqb name "OTHER_EXPENSE" then Some "Other Expense"
  else None.

End Sample.

(* ------------------------------------------------------------------ *)
(** ** Sums of amounts                                                 *)
(* ------------------------------------------------------------------ *)

Section Sums.

Local Open Scope Q_scope.

Lemma fold_left_Qplus_acc (xs : list Q) (a : Q) :
  fold_left Qplus xs a == a + Py.sum xs.
Proof.
  unfold Py.sum. revert a.
  induction xs as [|x xs IH]; intro a; simpl.
  - ring.
  - rewrite (IH (a + x)), (IH (0 + x)). ring.
Qed.

Lemma sum_cons (x : Q) (xs : list Q) : Py.sum (x :: xs) == x + Py.sum xs.
Proof.
  unfold Py.sum at 1. simpl. rewrite fold_left_Qplus_acc. ring.
Qed.

Lemma sum_app (xs ys : list Q) : Py.sum (xs ++ ys) == Py.sum xs + Py.sum ys.
Proof.
  induction xs as [|x xs IH]; simpl.
  - unfold Py.sum at 2. simpl. ring.
  - rewrite !sum_cons, IH. ring.
Qed.

Lemma entry_total_app (e : Balance.BalanceType) (xs ys : list Ledger.t) :
  entry_total e (xs ++ ys) == entry_total e xs + entry_total e ys.
Proof.
  unfold entry_total. rewrite filter_app, map_app. apply sum_app.
Qed.

Lemma balanced_nil : balanced [].
Proof. unfold balanced, entry_total. simpl. reflexivity. Qed.

Lemma balanced_app (xs ys : list Ledger.t) :
  balanced xs -> balanced ys -> balanced (xs ++ ys).
Proof.
  unfold balanced. intros Hx Hy.
  rewrite !entry_total_app, Hx, Hy. reflexivity.
Qed.

(** The pair of rows posted for one line item. *)
Lemma balanced_pair (a b : Ledger.t) :
  Ledger.amount a == Ledger.amount b ->
  Ledger.entry_type a <> Ledger.entry_type b ->
  balanced [a; b].
Proof.
  unfold balanced, entry_total. intros Hamount Hside. simpl.
  destruct (Ledger.entry_type a), (Ledger.entry_type b);
    try (exfalso; apply Hside; reflexivity); simpl;
    unfold Py.sum; simpl; rewrite Hamount; reflexivity.
Qed.

Lemma Ledger_post_balanced (self : Transaction.t) :
  balanced (Transaction.Ledger_post self).
Proof.
  unfold Transaction.Ledger_post.
  induction (Transaction.line_items self) as [|l items IH]; simpl.
  - apply balanced_nil.
  - change (balanced
              ([Ledger.mk (Transaction.entity_id self) (Transaction.id self)
                  (Transaction.currency_id self) (LineItem.account_id l)
                  (Transaction.side (LineItem.credited l))
                  (Transaction.line_item_total l);
                Ledger.mk (Transaction.entity_id self) (Transaction.id self)
                  (Transaction.currency_id self) (Transaction.account_id self)
                  (Transaction.side (negb (LineItem.credited l)))
                  (Transaction.line_item_total l)] ++
               flat_map
                 (fun l0 =>
                    [Ledger.mk (Transaction.entity_id self)
                       (Transaction.id self) (Transaction.currency_id self)
                       (LineItem.account_id l0)
                       (Transaction.side (LineItem.credited l0))
                       (Transaction.line_item_total l0);
                     Ledger.mk (Transaction.entity_id self)
                       (Transaction.id self) (Transaction.currency_id self)
                       (Transaction.account_id self)
                       (Transaction.side (negb (LineItem.credited l0)))
                       (Transaction.line_item_total l0)]) items)).
    apply balanced_app; [|exact IH].
    apply balanced_pair; simpl.
    + reflexivity.
    + destruct (LineItem.credited l); discriminate.
Qed.

End Sums.

(* ------------------------------------------------------------------ *)
(** ** The validation sequence                                         *)
(* ------------------------------------------------------------------ *)

Ltac run_method :=
  unfold Transaction.validate, Transaction.validate_delete,
    Transaction._get_main_account, Transaction.line_items_add,
    Transaction.validate_line_items, Transaction.post,
    bind, get, put, ret, raise, lift in *.

Lemma set_fields_same (self : Transaction.t) :
  Transaction.set_transaction_no
    (Transaction.set_currency_id self (Transaction.currency_id self))
    (Transaction.transaction_no self) = self.
Proof. destruct self; reflexivity. Qed.

Lemma check_redundant_state (account_id : option Z) (items : list LineItem.t)
  (self : Transaction.t) :
  state_of (Transaction.check_redundant account_id items self) = self.
Proof.
  induction items as [|l items IH]; simpl.
  - reflexivity.
  - destruct (Py.eq_int (LineItem.account_id l) account_id); simpl; auto.
Qed.

Lemma check_redundant_raises (account_id : option Z) (items : list LineItem.t)
  (self : Transaction.t) (e : exception) :
  raised (Transaction.check_redundant account_id items self) = Some e ->
  exists l, e = RedundantTransactionError l.
Proof.
  induction items as [|l items IH]; simpl.
  - discriminate.
  - destruct (Py.eq_int (LineItem.account_id l) account_id); simpl; auto.
    intros [= <-]. now exists l.
Qed.

Lemma result_eta {S A} (r : result S A) (s : S) (a : A) :
  r = Return s a -> state_of r = s /\ raised r = None.
Proof. intros ->. split; reflexivity. Qed.

Section ValidateFacts.

Variable get_period :
  Transaction.AccountingSession -> option Py.datetime
  -> exception + ReportingPeriod.t.
Variable interval : ReportingPeriod.t -> ReportingPeriod.Interval.
Variable transaction_no_prefix : Transaction.TransactionType -> string.

Let validate := Transaction.validate get_period interval transaction_no_prefix.

(** Whatever its outcome, [validate] writes at most [currency_id] and
    [transaction_no]. *)
Lemma validate_writes (session : Transaction.AccountingSession)
  (self : Transaction.t) :
  exists c n,
    state_of (validate session self)
    = Transaction.set_transaction_no (Transaction.set_currency_id self c) n.
Proof.
  assert (Hsame : exists c n,
             self = Transaction.set_transaction_no
                      (Transaction.set_currency_id self c) n)
    by (exists (Transaction.currency_id self), (Transaction.transaction_no self);
        symmetry; apply set_fields_same).
  subst validate. run_method.
  destruct (Transaction.is_posted self); [exact Hsame|].
  destruct (Transaction.session_get_Account session _) as [account|];
    [|exact Hsame].
  destruct (get_period session _) as [e|p]; simpl; [exact Hsame|].
  set (self1 := Transaction.set_currency_id self
                  (Some (Account.currency_id account))).
  assert (H1 : exists c n,
             self1 = Transaction.set_transaction_no
                       (Transaction.set_currency_id self c) n).
  { exists (Some (Account.currency_id account)), (Transaction.transaction_no self).
    subst self1. destruct self; reflexivity. }
  destruct (ReportingPeriod.Status_eqb _ ReportingPeriod.CLOSED);
    [exact H1|].
  destruct (_ && _); [exact H1|].
  destruct (_ && _); [exact H1|].
  destruct (_ && _); [exact H1|].
  destruct (negb _); simpl; rewrite check_redundant_state.
  - eexists _, _. subst self1. destruct self; reflexivity.
  - exact H1.
Qed.

Lemma validate_keeps_ledgers (session : Transaction.AccountingSession)
  (self : Transaction.t) :
  Transaction.ledgers (state_of (validate session self))
  = Transaction.ledgers self.
Proof.
  destruct (validate_writes session self) as (c & n & ->).
  reflexivity.
Qed.

End ValidateFacts.

Lemma is_posted_nonempty (self : Transaction.t) :
  Transaction.ledgers self <> [] <-> Transaction.is_posted self = true.
Proof.
  unfold Transaction.is_posted.
  destruct (Transaction.ledgers self) as [|row rows]; simpl.
  - split; [intros H; now elim H | discriminate].
  - split; [reflexivity | discriminate].
Qed.

(** C3: a Transaction whose [ledgers] list is non-empty is refused by
    [validate] and by [validate_delete] with PostedTransactionError, and both
    calls leave it exactly as it was. *)
Theorem posted_transaction_is_refused
  (get_period : Transaction.AccountingSession -> option Py.datetime
                -> exception + ReportingPeriod.t)
  (interval : ReportingPeriod.t -> ReportingPeriod.Interval)
  (transaction_no_prefix : Transaction.TransactionType -> string)
  (session : Transaction.AccountingSession) (self : Transaction.t) :
  Transaction.ledgers self <> [] ->
  Transaction.validate get_period interval transaction_no_prefix session self
  = Raise self
      (PostedTransactionError "A Posted Transaction cannot be modified.")
  /\ Transaction.validate_delete session self
     = Raise self
         (PostedTransactionError "A Posted Transaction cannot be deleted.").
Proof.
  intros Hposted%is_posted_nonempty.
  run_method. rewrite Hposted. split; reflexivity.
Qed.

Lemma posted_transaction_is_refused_witness :
  Transaction.ledgers Sample.posted_cash_sale <> []
  /\ (Transaction.validate (Sample.get_period ReportingPeriod.OPEN)
        Sample.interval Sample.transaction_no_prefix Sample.session
        Sample.posted_cash_sale
      = Raise Sample.posted_cash_sale
          (PostedTransactionError "A Posted Transaction cannot be modified.")
      /\ Transaction.validate_delete Sample.session Sample.posted_cash_sale
         = Raise Sample.posted_cash_sale
             (PostedTransactionError "A Posted Transaction cannot be deleted.")).
Proof.
  assert (H : Transaction.ledgers Sample.posted_cash_sale <> [])
    by (vm_compute; discriminate).
  split; [exact H|].
  apply (posted_transaction_is_refused
           (Sample.get_period ReportingPeriod.OPEN) Sample.interval
           Sample.transaction_no_prefix Sample.session
           Sample.posted_cash_sale H).
Defined.

(** C10: a successful [validate] sets [currency_id] to the currency of the
    main account; apart from [currency_id] and [transaction_no] the
    Transaction it leaves is the Transaction it was given. *)
Theorem validate_success_frame
  (get_period : Transaction.AccountingSession -> option Py.datetime
                -> exception + ReportingPeriod.t)
  (interval : ReportingPeriod.t -> ReportingPeriod.Interval)
  (transaction_no_prefix : Transaction.TransactionType -> string)
  (session : Transaction.AccountingSession) (self self' : Transaction.t) :
  Transaction.validate get_period interval transaction_no_prefix session self
  = Return self' tt ->
  exists account,
    Transaction.session_get_Account session (Transaction.account_id self)
    = Some account
    /\ Transaction.currency_id self' = Some (Account.currency_id account)
    /\ self'
       = Transaction.set_transaction_no
           (Transaction.set_currency_id self
              (Some (Account.currency_id account)))
           (Transaction.transaction_no self').
Proof.
  run_method.
  destruct (Transaction.is_posted self); [discriminate|].
  destruct (Transaction.session_get_Account session _) as [account|];
    [|discriminate].
  destruct (get_period session _) as [e|p]; simpl; [discriminate|].
  destruct (ReportingPeriod.Status_eqb _ ReportingPeriod.CLOSED);
    [discriminate|].
  destruct (_ && _); [discriminate|].
  destruct (_ && _); [discriminate|].
  destruct (_ && _); [discriminate|].
  intros Hrun. apply result_eta in Hrun as [Hstate _].
  exists account. split; [reflexivity|].
  destruct (negb _); simpl in Hstate; rewrite check_redundant_state in Hstate;
    subst self'; destruct self; split; reflexivity.
Qed.

Lemma validate_success_frame_witness :
  exists self',
    Transaction.validate (Sample.get_period ReportingPeriod.OPEN)
      Sample.interval Sample.transaction_no_prefix Sample.session
      Sample.cash_sale = Return self' tt
    /\ exists account,
         Transaction.session_get_Account Sample.session
           (Transaction.account_id Sample.cash_sale) = Some account
         /\ Transaction.currency_id self' = Some (Account.currency_id account)
         /\ self'
            = Transaction.set_transaction_no
                (Transaction.set_currency_id Sample.cash_sale
                   (Some (Account.currency_id account)))
                (Transaction.transaction_no self').
Proof.
  eexists. split; [vm_compute; reflexivity|].
  apply (validate_success_frame (Sample.get_period ReportingPeriod.OPEN)
           Sample.interval Sample.transaction_no_prefix Sample.session
           Sample.cash_sale).
  vm_compute; reflexivity.
Defined.

Lemma eq_int_true (a b : option Z) : Py.eq_int a b = true <-> a = b.
Proof.
  destruct a as [x|], b as [y|]; simpl; split; try discriminate; auto.
  - intros H%Z.eqb_eq. now subst.
  - intros [= ->]. apply Z.eqb_refl.
Qed.

Lemma TransactionType_eqb_true (a b : Transaction.TransactionType) :
  Transaction.TransactionType_eqb a b = true <-> a = b.
Proof. destruct a, b; simpl; split; (discriminate || reflexivity). Qed.

Lemma Status_eqb_true (a b : ReportingPeriod.Status) :
  ReportingPeriod.Status_eqb a b = true <-> a = b.
Proof. destruct a, b; simpl; split; (discriminate || reflexivity). Qed.

(** C6 (as amended): for an unposted Transaction whose main account
    resolves, [validate] raises ClosedReportingPeriodError when the period
    that owns [transaction_date] is CLOSED, raises
    AdjustingReportingPeriodError when that period is ADJUSTING and the
    Transaction is not a JOURNAL_ENTRY, and raises neither for a JOURNAL_ENTRY
    in an ADJUSTING period. *)
Theorem validate_period_status_gate
  (get_period : Transaction.AccountingSession -> option Py.datetime
                -> exception + ReportingPeriod.t)
  (interval : ReportingPeriod.t -> ReportingPeriod.Interval)
  (transaction_no_prefix : Transaction.TransactionType -> string)
  (session : Transaction.AccountingSession) (self : Transaction.t)
  (account : Account.t) (p : ReportingPeriod.t) :
  Transaction.is_posted self = false ->
  Transaction.session_get_Account session (Transaction.account_id self)
  = Some account ->
  get_period session (Transaction.transaction_date self) = inr p ->
  (ReportingPeriod.status p = ReportingPeriod.CLOSED ->
   Transaction.validate get_period interval transaction_no_prefix session self
   = Raise
       (Transaction.set_currency_id self (Some (Account.currency_id account)))
       (ClosedReportingPeriodError p))
  /\ (ReportingPeriod.status p = ReportingPeriod.ADJUSTING ->
      Transaction.transaction_type self <> Transaction.JOURNAL_ENTRY ->
      Transaction.validate get_period interval transaction_no_prefix session
        self
      = Raise
          (Transaction.set_currency_id self
             (Some (Account.currency_id account)))
          (AdjustingReportingPeriodError p))
  /\ (ReportingPeriod.status p = ReportingPeriod.ADJUSTING ->
      Transaction.transaction_type self = Transaction.JOURNAL_ENTRY ->
      forall q,
        raised
          (Transaction.validate get_period interval transaction_no_prefix
             session self) <> Some (ClosedReportingPeriodError q)
        /\ raised
             (Transaction.validate get_period interval transaction_no_prefix
                session self) <> Some (AdjustingReportingPeriodError q)).
Proof.
  intros Hposted Haccount Hperiod.
  run_method. rewrite Hposted, Haccount, Hperiod. simpl.
  split; [|split].
  - intros ->. reflexivity.
  - intros -> Htype. simpl.
    destruct (Transaction.TransactionType_eqb _ _) eqn:E; [|reflexivity].
    apply TransactionType_eqb_true in E. contradiction.
  - intros -> -> q. simpl.
    destruct (_ && _); [split; discriminate|].
    destruct (_ && _); [split; discriminate|].
    destruct (negb _); simpl;
      (split; intros H; apply check_redundant_raises in H as [l Hl];
       discriminate).
Qed.

Lemma validate_period_status_gate_witness :
  Transaction.is_posted Sample.cash_sale = false
  /\ Transaction.session_get_Account Sample.session
       (Transaction.account_id Sample.cash_sale) = Some Sample.bank
  /\ Sample.get_period ReportingPeriod.CLOSED Sample.session
       (Transaction.transaction_date Sample.cash_sale)
     = inr (Sample.period_2024 ReportingPeriod.CLOSED)
  /\ Transaction.validate (Sample.get_period ReportingPeriod.CLOSED)
       Sample.interval Sample.transaction_no_prefix Sample.session
       Sample.cash_sale
     = Raise
         (Transaction.set_currency_id Sample.cash_sale
            (Some (Account.currency_id Sample.bank)))
         (ClosedReportingPeriodError (Sample.period_2024 ReportingPeriod.CLOSED)).
Proof.
  split; [reflexivity|]. split; [reflexivity|]. split; [reflexivity|].
  apply (proj1
           (validate_period_status_gate
              (Sample.get_period ReportingPeriod.CLOSED) Sample.interval
              Sample.transaction_no_prefix Sample.session Sample.cash_sale
              Sample.bank (Sample.period_2024 ReportingPeriod.CLOSED)
              eq_refl eq_refl eq_refl)).
  reflexivity.
Defined.

(** Against C6 as stated: an unposted cash sale without a main account,
    dated in a CLOSED period; [validate] stops at the main account and
    raises ValueError. *)
Lemma closed_period_behind_main_account :
  Transaction.is_posted Sample.orphan_sale = false
  /\ Sample.get_period ReportingPeriod.CLOSED Sample.session
       (Transaction.transaction_date Sample.orphan_sale)
     = inr (Sample.period_2024 ReportingPeriod.CLOSED)
  /\ ReportingPeriod.status (Sample.period_2024 ReportingPeriod.CLOSED)
     = ReportingPeriod.CLOSED
  /\ Transaction.validate (Sample.get_period ReportingPeriod.CLOSED)
       Sample.interval Sample.transaction_no_prefix Sample.session
       Sample.orphan_sale
     = Raise Sample.orphan_sale (ValueError "The main Account is required").
Proof. repeat split. Qed.

(** C7 (as amended): for an unposted Transaction whose main account resolves
    and whose owning period lets it through (not CLOSED, and ADJUSTING only
    for a JOURNAL_ENTRY), [validate] raises InvalidTransactionDateError when
    [transaction_date] is exactly the start of the period's interval; at any
    other instant, one microsecond later included, it does not raise that
    error. *)
Theorem validate_period_start_gate
  (get_period : Transaction.AccountingSession -> option Py.datetime
                -> exception + ReportingPeriod.t)
  (interval : ReportingPeriod.t -> ReportingPeriod.Interval)
  (transaction_no_prefix : Transaction.TransactionType -> string)
  (session : Transaction.AccountingSession) (self : Transaction.t)
  (account : Account.t) (p : ReportingPeriod.t) :
  Transaction.is_posted self = false ->
  Transaction.session_get_Account session (Transaction.account_id self)
  = Some account ->
  get_period session (Transaction.transaction_date self) = inr p ->
  (ReportingPeriod.status p <> ReportingPeriod.CLOSED ->
   (ReportingPeriod.status p = ReportingPeriod.ADJUSTING ->
    Transaction.transaction_type self = Transaction.JOURNAL_ENTRY) ->
   Transaction.transaction_date self
   = Some (ReportingPeriod.start (interval p)) ->
   Transaction.validate get_period interval transaction_no_prefix session self
   = Raise
       (Transaction.set_currency_id self (Some (Account.currency_id account)))
       InvalidTransactionDateError)
  /\ (Transaction.transaction_date self
      <> Some (ReportingPeriod.start (interval p)) ->
      raised
        (Transaction.validate get_period interval transaction_no_prefix
           session self) <> Some InvalidTransactionDateError)
  /\ (Transaction.transaction_date self
      = Some (ReportingPeriod.start (interval p) + 1) ->
      raised
        (Transaction.validate get_period interval transaction_no_prefix
           session self) <> Some InvalidTransactionDateError).
Proof.
  intros Hposted Haccount Hperiod.
  assert (Hlater :
            Transaction.transaction_date self
            <> Some (ReportingPeriod.start (interval p)) ->
            raised
              (Transaction.validate get_period interval transaction_no_prefix
                 session self) <> Some InvalidTransactionDateError).
  { intros Hdate. run_method. rewrite Hposted, Haccount, Hperiod. simpl.
    destruct (ReportingPeriod.Status_eqb _ _); [discriminate|].
    destruct (_ && _); [discriminate|].
    destruct (Py.eq_datetime _ _) eqn:E.
    { apply eq_int_true in E. contradiction. }
    rewrite andb_false_r.
    destruct (_ && _); [discriminate|].
    destruct (negb _); simpl;
      (intros H; apply check_redundant_raises in H as [l Hl]; discriminate). }
  split; [|split].
  - intros Hopen Hadjusting Hdate.
    run_method. rewrite Hposted, Haccount, Hperiod. simpl.
    destruct (ReportingPeriod.Status_eqb _ ReportingPeriod.CLOSED) eqn:Eclosed.
    { apply Status_eqb_true in Eclosed. contradiction. }
    destruct (ReportingPeriod.Status_eqb _ ReportingPeriod.ADJUSTING)
      eqn:Eadjusting; simpl.
    + apply Status_eqb_true in Eadjusting.
      rewrite (Hadjusting Eadjusting). simpl.
      rewrite Hdate. simpl. rewrite Z.eqb_refl. reflexivity.
    + rewrite Hdate. simpl. rewrite Z.eqb_refl. reflexivity.
  - exact Hlater.
  - intros Hdate. apply Hlater. rewrite Hdate. intros [= H]. lia.
Qed.

Lemma validate_period_start_gate_witness :
  Transaction.is_posted Sample.opening_cash_sale = false
  /\ Transaction.session_get_Account Sample.session
       (Transaction.account_id Sample.opening_cash_sale) = Some Sample.bank
  /\ Sample.get_period ReportingPeriod.OPEN Sample.session
       (Transaction.transaction_date Sample.opening_cash_sale)
     = inr (Sample.period_2024 ReportingPeriod.OPEN)
  /\ Transaction.validate (Sample.get_period ReportingPeriod.OPEN)
       Sample.interval Sample.transaction_no_prefix Sample.session
       Sample.opening_cash_sale
     = Raise
         (Transaction.set_currency_id Sample.opening_cash_sale
            (Some (Account.currency_id Sample.bank)))
         InvalidTransactionDateError.
Proof.
  split; [reflexivity|]. split; [reflexivity|]. split; [reflexivity|].
  apply (proj1
           (validate_period_start_gate
              (Sample.get_period ReportingPeriod.OPEN) Sample.interval
              Sample.transaction_no_prefix Sample.session
              Sample.opening_cash_sale Sample.bank
              (Sample.period_2024 ReportingPeriod.OPEN)
              eq_refl eq_refl eq_refl)).
  - simpl. discriminate.
  - simpl. discriminate.
  - reflexivity.
Defined.

(** Against C7 as stated: an unposted cash sale dated exactly at the start
    of a CLOSED period; [validate] raises ClosedReportingPeriodError, not
    InvalidTransactionDateError. *)
Lemma period_start_behind_closed_period :
  Transaction.is_posted Sample.opening_cash_sale = false
  /\ Sample.get_period ReportingPeriod.CLOSED Sample.session
       (Transaction.transaction_date Sample.opening_cash_sale)
     = inr (Sample.period_2024 ReportingPeriod.CLOSED)
  /\ Transaction.transaction_date Sample.opening_cash_sale
     = Some (ReportingPeriod.start
               (Sample.interval (Sample.period_2024 ReportingPeriod.CLOSED)))
  /\ Transaction.validate (Sample.get_period ReportingPeriod.CLOSED)
       Sample.interval Sample.transaction_no_prefix Sample.session
       Sample.opening_cash_sale
     = Raise
         (Transaction.set_currency_id Sample.opening_cash_sale
            (Some (Account.currency_id Sample.bank)))
         (ClosedReportingPeriodError (Sample.period_2024 ReportingPeriod.CLOSED)).
Proof. repeat split. Qed.

(* ------------------------------------------------------------------ *)
(** ** Attaching line items                                            *)
(* ------------------------------------------------------------------ *)

(** C8 (as amended): attaching a line item that has no id, or attaching any
    line item to a posted Transaction, fails and leaves both the Transaction
    (its line items included) and the line item as they were; on a posted
    Transaction the error is PostedTransactionError whenever the subclass
    hook, which runs first, is absent or accepts the line item. *)
Theorem line_items_add_refusals
  (_validate_subclass_line_items :
     option (Transaction.t -> LineItem.t -> option exception))
  (self : Transaction.t) (line_item : LineItem.t) :
  LineItem.id line_item = None \/ Transaction.is_posted self = true ->
  (exists e,
      Transaction.line_items_add _validate_subclass_line_items
        (self, line_item) = Raise (self, line_item) e)
  /\ (Transaction.is_posted self = true ->
      (forall hook,
          _validate_subclass_line_items = Some hook ->
          hook self line_item = None) ->
      Transaction.line_items_add _validate_subclass_line_items
        (self, line_item)
      = Raise (self, line_item)
          (PostedTransactionError
             "Cannot Add Line Items from a Posted Transaction.")).
Proof.
  intros Hrefused. run_method. split.
  - destruct _validate_subclass_line_items as [hook|].
    + destruct (hook self line_item) as [e|]; [now exists e|].
      destruct (Transaction.is_posted self); [eexists; reflexivity|].
      destruct Hrefused as [Hid|Hposted]; [|discriminate].
      rewrite Hid. eexists; reflexivity.
    + destruct (Transaction.is_posted self); [eexists; reflexivity|].
      destruct Hrefused as [Hid|Hposted]; [|discriminate].
      rewrite Hid. eexists; reflexivity.
  - intros Hposted Haccepts.
    destruct _validate_subclass_line_items as [hook|].
    + rewrite (Haccepts hook eq_refl), Hposted. reflexivity.
    + rewrite Hposted. reflexivity.
Qed.

Lemma line_items_add_refusals_witness :
  (LineItem.id Sample.unsaved_line = None
   \/ Transaction.is_posted Sample.cash_sale = true)
  /\ exists e,
       Transaction.line_items_add None (Sample.cash_sale, Sample.unsaved_line)
       = Raise (Sample.cash_sale, Sample.unsaved_line) e.
Proof.
  split; [left; reflexivity|].
  apply (proj1
           (line_items_add_refusals None Sample.cash_sale Sample.unsaved_line
              (or_introl eq_refl))).
Defined.

(** Against C8 as stated: a posted cash sale whose subclass hook refuses the
    line item; the hook runs before the posted check, and the error is the
    hook's. *)
Lemma posted_check_behind_subclass_hook :
  Transaction.is_posted Sample.posted_cash_sale = true
  /\ Transaction.line_items_add (Some Sample.refusing_hook)
       (Sample.posted_cash_sale, Sample.sale_line)
     = Raise (Sample.posted_cash_sale, Sample.sale_line)
         (InvalidLineItemAccountError "CashSale" ["Operating Revenue"%string]).
Proof. split; reflexivity. Qed.

(** One attachment to a non-compound Transaction: the stored line item sits
    on the side opposite to the Transaction, and the line items attached
    before stay there. *)
Lemma line_items_add_stores_opposite
  (_validate_subclass_line_items :
     option (Transaction.t -> LineItem.t -> option exception))
  (self self' : Transaction.t) (line_item line_item' : LineItem.t) :
  Transaction.compound self = false ->
  Transaction.line_items_add _validate_subclass_line_items (self, line_item)
  = Return (self', line_item') tt ->
  LineItem.credited line_item' = negb (Transaction.credited self')
  /\ In line_item' (Transaction.line_items self')
  /\ (opposite_side self -> opposite_side self').
Proof.
  intros Hcompound. unfold opposite_side in *.
  run_method. rewrite Hcompound. simpl.
  assert (Hstored :
            forall stored,
              LineItem.credited stored = negb (Transaction.credited self) ->
              Return
                (Transaction.set_line_items self
                   (Transaction.line_items self ++ [stored]), stored) tt
              = Return (self', line_item') tt ->
              LineItem.credited line_item' = negb (Transaction.credited self')
              /\ In line_item' (Transaction.line_items self')
              /\ (Forall
                    (fun l =>
                       LineItem.credited l = negb (Transaction.credited self))
                    (Transaction.line_items self) ->
                  Forall
                    (fun l =>
                       LineItem.credited l = negb (Transaction.credited self'))
                    (Transaction.line_items self'))).
  { intros stored Hflag [= <- <-]. simpl. split; [exact Hflag|]. split.
    - apply in_or_app. right. left. reflexivity.
    - intros Hbefore.
      apply Forall_app. split; [exact Hbefore|]. constructor; auto. }
  destruct _validate_subclass_line_items as [hook|].
  - destruct (hook self line_item); [discriminate|].
    destruct (Transaction.is_posted self); [discriminate|].
    destruct (LineItem.id line_item); [|discriminate].
    destruct (Bool.eqb _ _) eqn:E; simpl; apply Hstored; simpl; auto.
    apply eqb_false_iff in E.
    destruct (LineItem.credited line_item), (Transaction.credited self);
      simpl; congruence.
  - destruct (Transaction.is_posted self); [discriminate|].
    destruct (LineItem.id line_item); [|discriminate].
    destruct (Bool.eqb _ _) eqn:E; simpl; apply Hstored; simpl; auto.
    apply eqb_false_iff in E.
    destruct (LineItem.credited line_item), (Transaction.credited self);
      simpl; congruence.
Qed.

(* ------------------------------------------------------------------ *)
(** ** Amounts, posting and contribution                               *)
(* ------------------------------------------------------------------ *)

Lemma line_item_total_share (l : LineItem.t) :
  (Transaction.line_item_total l == line_item_share l)%Q.
Proof.
  unfold Transaction.line_item_total, line_item_share.
  destruct (_ && _); ring.
Qed.

(** [amount], line item by line item. *)
Lemma amount_by_shares (self : Transaction.t) :
  (Transaction.amount self
   == amount_spec (Transaction.credited self) (Transaction.line_items self))%Q.
Proof.
  unfold Transaction.amount.
  induction (Transaction.line_items self) as [|l items IH]; simpl.
  - reflexivity.
  - destruct (Bool.eqb (LineItem.credited l) (Transaction.credited self));
      simpl.
    + exact IH.
    + rewrite sum_cons, IH.
      apply Qplus_inj_r. apply (line_item_total_share l).
Qed.

(** [line_items] is a set: the order in which it is iterated does not
    change the amount. *)
Lemma amount_spec_permutation (credited : bool) (xs ys : list LineItem.t) :
  Permutation xs ys ->
  (amount_spec credited xs == amount_spec credited ys)%Q.
Proof.
  induction 1 as [|l xs ys _ IH|a b xs|xs ys zs _ IHxy _ IHyz]; simpl.
  - reflexivity.
  - destruct (Bool.eqb (LineItem.credited l) credited);
      rewrite IH; reflexivity.
  - destruct (Bool.eqb (LineItem.credited a) credited),
      (Bool.eqb (LineItem.credited b) credited); ring.
  - rewrite IHxy. exact IHyz.
Qed.

Lemma amount_order_irrelevant (self other : Transaction.t) :
  Transaction.credited self = Transaction.credited other ->
  Permutation (Transaction.line_items self) (Transaction.line_items other) ->
  (Transaction.amount self == Transaction.amount other)%Q.
Proof.
  intros Hcredited Hitems.
  rewrite !amount_by_shares, Hcredited.
  apply amount_spec_permutation. exact Hitems.
Qed.

(** The cash sale of the income-statement fixture: 200 taxed at 10%. *)
Example cash_sale_amount :
  (Transaction.amount Sample.cash_sale_with_line == 220)%Q.
Proof. reflexivity. Qed.

Example cash_sale_posts_to_bank :
  exists d,
    Transaction.contribution Sample.posted_cash_sale
      (fst (state_of (Transaction.post
                        (Sample.session, Sample.cash_sale_with_line))))
      Sample.bank = inr d
    /\ (d == 220)%Q.
Proof. eexists. split; reflexivity. Qed.

(** C5: the [amount] property is the sum, over exactly the line items whose
    [credited] flag differs from that of the Transaction, of
    [quantity * amount], plus [amount * quantity * tax.rate / 100] for a line
    item that has a tax and is not tax inclusive. *)
Theorem amount_is_sum_of_opposite_shares (self : Transaction.t) :
  (Transaction.amount self
   == amount_spec (Transaction.credited self) (Transaction.line_items self))%Q.
Proof. exact (amount_by_shares self). Qed.

Section LifecycleFacts.

Variable _validate_subclass_line_items :
  option (Transaction.t -> LineItem.t -> option exception).
Variable get_period :
  Transaction.AccountingSession -> option Py.datetime
  -> exception + ReportingPeriod.t.
Variable interval : ReportingPeriod.t -> ReportingPeriod.Interval.
Variable transaction_no_prefix : Transaction.TransactionType -> string.

Lemma line_items_add_keeps_ledgers (self : Transaction.t)
  (line_item : LineItem.t) :
  Transaction.ledgers
    (fst (state_of
            (Transaction.line_items_add _validate_subclass_line_items
               (self, line_item))))
  = Transaction.ledgers self.
Proof.
  unfold Transaction.line_items_add.
  destruct (Transaction.validate_line_items _ _ _ _ _); reflexivity.
Qed.

Lemma step_keeps_balance (self self' : Transaction.t) :
  step _validate_subclass_line_items get_period interval
    transaction_no_prefix self self' ->
  balanced (Transaction.ledgers self) ->
  balanced (Transaction.ledgers self').
Proof.
  intros Hstep Hbalanced.
  destruct Hstep as [session self|session self|self line_item|session self].
  - rewrite validate_keeps_ledgers. exact Hbalanced.
  - run_method. destruct (Transaction.is_posted self); exact Hbalanced.
  - rewrite line_items_add_keeps_ledgers. exact Hbalanced.
  - unfold Transaction.post.
    destruct (Transaction.line_items self); simpl; [exact Hbalanced|].
    apply balanced_app; [exact Hbalanced|apply Ledger_post_balanced].
Qed.

Lemma lifecycle_keeps_balance (self : Transaction.t) :
  lifecycle _validate_subclass_line_items get_period interval
    transaction_no_prefix self ->
  balanced (Transaction.ledgers self).
Proof.
  induction 1 as [self Hnew _|self self' _ IH Hstep].
  - rewrite Hnew. apply balanced_nil.
  - exact (step_keeps_balance self self' Hstep IH).
Qed.

Lemma step_keeps_opposite_side (self self' : Transaction.t) :
  step _validate_subclass_line_items get_period interval
    transaction_no_prefix self self' ->
  Transaction.compound self = false ->
  opposite_side self ->
  Transaction.compound self' = false /\ opposite_side self'.
Proof.
  intros Hstep Hcompound Hopposite.
  destruct Hstep as [session self|session self|self line_item|session self].
  - destruct (validate_writes get_period interval transaction_no_prefix
                session self) as (c & n & ->).
    split; [exact Hcompound|exact Hopposite].
  - run_method. destruct (Transaction.is_posted self);
      (split; [exact Hcompound|exact Hopposite]).
  - destruct (Transaction.line_items_add _validate_subclass_line_items
                (self, line_item)) as [[self' line_item'] []|[self' line_item'] e]
      eqn:Hadd; simpl.
    + split.
      * unfold Transaction.line_items_add in Hadd.
        destruct (Transaction.validate_line_items _ _ _ _ _);
          [|discriminate].
        injection Hadd as <- _. exact Hcompound.
      * apply (line_items_add_stores_opposite _ _ _ _ _ Hcompound Hadd).
        exact Hopposite.
    + unfold Transaction.line_items_add in Hadd.
      destruct (Transaction.validate_line_items _ _ _ _ _);
        [discriminate|].
      injection Hadd as <- _ _. split; [exact Hcompound|exact Hopposite].
  - unfold Transaction.post.
    destruct (Transaction.line_items self); simpl;
      (split; [exact Hcompound|exact Hopposite]).
Qed.

Lemma lifecycle_opposite_side (self : Transaction.t) :
  lifecycle _validate_subclass_line_items get_period interval
    transaction_no_prefix self ->
  Transaction.compound self = false ->
  opposite_side self.
Proof.
  induction 1 as [self _ Hitems|self self' Hlife IH Hstep]; intros Hcompound.
  - unfold opposite_side. rewrite Hitems. constructor.
  - assert (Hbefore : Transaction.compound self = false).
    { destruct Hstep as [session self|session self|self line_item|session self].
      - destruct (validate_writes get_period interval transaction_no_prefix
                    session self) as (c & n & Hstate).
        rewrite Hstate in Hcompound. exact Hcompound.
      - run_method. destruct (Transaction.is_posted self); exact Hcompound.
      - unfold Transaction.line_items_add in Hcompound.
        destruct (Transaction.validate_line_items _ _ _ _ _);
          exact Hcompound.
      - unfold Transaction.post in Hcompound.
        destruct (Transaction.line_items self); exact Hcompound. }
    exact (proj2 (step_keeps_opposite_side self self' Hstep Hbefore
                    (IH Hbefore))).
Qed.

End LifecycleFacts.

(** C4: every line item attached to a non-compound Transaction has a
    [credited] flag that is the negation of the flag of the Transaction, and
    the line item stored by one more attachment has it too. *)
Theorem attached_line_items_opposite_side
  (_validate_subclass_line_items :
     option (Transaction.t -> LineItem.t -> option exception))
  (get_period : Transaction.AccountingSession -> option Py.datetime
                -> exception + ReportingPeriod.t)
  (interval : ReportingPeriod.t -> ReportingPeriod.Interval)
  (transaction_no_prefix : Transaction.TransactionType -> string)
  (self : Transaction.t) :
  lifecycle _validate_subclass_line_items get_period interval
    transaction_no_prefix self ->
  Transaction.compound self = false ->
  Forall
    (fun l => LineItem.credited l = negb (Transaction.credited self))
    (Transaction.line_items self)
  /\ forall line_item self' line_item',
       Transaction.line_items_add _validate_subclass_line_items
         (self, line_item) = Return (self', line_item') tt ->
       LineItem.credited line_item' = negb (Transaction.credited self')
       /\ In line_item' (Transaction.line_items self')
       /\ Forall
            (fun l => LineItem.credited l = negb (Transaction.credited self'))
            (Transaction.line_items self').
Proof.
  intros Hlife Hcompound.
  pose proof (lifecycle_opposite_side _ _ _ _ self Hlife Hcompound)
    as Hopposite.
  split; [exact Hopposite|].
  intros line_item self' line_item' Hadd.
  destruct (line_items_add_stores_opposite _ _ _ _ _ Hcompound Hadd)
    as (Hflag & Hin & Hkeeps).
  split; [exact Hflag|]. split; [exact Hin|exact (Hkeeps Hopposite)].
Qed.

Lemma attached_line_items_opposite_side_witness :
  lifecycle None (Sample.get_period ReportingPeriod.OPEN) Sample.interval
    Sample.transaction_no_prefix Sample.cash_sale_with_line
  /\ Transaction.compound Sample.cash_sale_with_line = false
  /\ Transaction.line_items Sample.cash_sale_with_line
     = [LineItem.set_credited Sample.sale_line true]
  /\ Forall
       (fun l =>
          LineItem.credited l
          = negb (Transaction.credited Sample.cash_sale_with_line))
       (Transaction.line_items Sample.cash_sale_with_line).
Proof.
  assert (Hlife :
            lifecycle None (Sample.get_period ReportingPeriod.OPEN)
              Sample.interval Sample.transaction_no_prefix
              Sample.cash_sale_with_line).
  { apply evolved with (self := Sample.cash_sale).
    - apply created; reflexivity.
    - exact (step_line_items_add None _ _ _ Sample.cash_sale
               Sample.sale_line). }
  split; [exact Hlife|]. split; [reflexivity|]. split; [reflexivity|].
  exact (proj1
           (attached_line_items_opposite_side None _ _ _
              Sample.cash_sale_with_line Hlife eq_refl)).
Defined.

(** C2: for every Transaction the lifecycle produces, once it is posted
    ([ledgers] non-empty) the DEBIT amounts of its Ledger entries and the
    CREDIT amounts of its Ledger entries have the same sum. *)
Theorem posted_ledgers_balance
  (_validate_subclass_line_items :
     option (Transaction.t -> LineItem.t -> option exception))
  (get_period : Transaction.AccountingSession -> option Py.datetime
                -> exception + ReportingPeriod.t)
  (interval : ReportingPeriod.t -> ReportingPeriod.Interval)
  (transaction_no_prefix : Transaction.TransactionType -> string)
  (self : Transaction.t) :
  lifecycle _validate_subclass_line_items get_period interval
    transaction_no_prefix self ->
  Transaction.is_posted self = true ->
  (entry_total Balance.DEBIT (Transaction.ledgers self)
   == entry_total Balance.CREDIT (Transaction.ledgers self))%Q.
Proof.
  intros Hlife _.
  exact (lifecycle_keeps_balance _ _ _ _ self Hlife).
Qed.

Lemma posted_ledgers_balance_witness :
  lifecycle None (Sample.get_period ReportingPeriod.OPEN) Sample.interval
    Sample.transaction_no_prefix Sample.posted_cash_sale
  /\ Transaction.is_posted Sample.posted_cash_sale = true
  /\ (entry_total Balance.DEBIT (Transaction.ledgers Sample.posted_cash_sale)
      == entry_total Balance.CREDIT
           (Transaction.ledgers Sample.posted_cash_sale))%Q.
Proof.
  assert (Hlife :
            lifecycle None (Sample.get_period ReportingPeriod.OPEN)
              Sample.interval Sample.transaction_no_prefix
              Sample.posted_cash_sale).
  { apply evolved with (self := Sample.cash_sale_with_line).
    - apply evolved with (self := Sample.cash_sale).
      + apply created; reflexivity.
      + exact (step_line_items_add None _ _ _ Sample.cash_sale
                 Sample.sale_line).
    - exact (step_post None _ _ _ Sample.session
               Sample.cash_sale_with_line). }
  split; [exact Hlife|]. split; [reflexivity|].
  exact (posted_ledgers_balance None _ _ _ Sample.posted_cash_sale Hlife
           eq_refl).
Defined.

(** C1: [contribution] does not compute debit minus credit unconditionally.
    For the compound entry of the sample books it returns the debit sum alone
    on both accounts (100 on the suspense account, where the net is 70, and
    30 on the bank, where the net is -70), and on an account the entry never
    posted to it raises TypeError where the net is 0. *)
Theorem contribution_misses_net_posted :
  Transaction.contribution Sample.compound_entry Sample.compound_session
    Sample.suspense = inr 100%Q
  /\ (net_posted Sample.compound_entry Sample.compound_session Sample.suspense
      == 70)%Q
  /\ Transaction.contribution Sample.compound_entry Sample.compound_session
       Sample.bank = inr 30%Q
  /\ (net_posted Sample.compound_entry Sample.compound_session Sample.bank
      == -70)%Q
  /\ Transaction.contribution Sample.compound_entry Sample.compound_session
       Sample.revenue
     = inl (TypeError
              "unsupported operand type(s) for -: 'int' and 'NoneType'")
  /\ (net_posted Sample.compound_entry Sample.compound_session Sample.revenue
      == 0)%Q.
Proof. repeat split. Qed.

(** The shape of the defect behind it: whenever the DEBIT rows have a
    non-zero sum, that sum is the result, whatever the CREDIT rows are. *)
Lemma contribution_returns_debit_sum (self : Transaction.t)
  (session : Transaction.AccountingSession) (account : Account.t) (d : Q) :
  Transaction.contribution_query self session account Balance.DEBIT = Some d ->
  Qeq_bool d 0 = false ->
  Transaction.contribution self session account = inr d.
Proof.
  intros Hdebit Hnonzero. unfold Transaction.contribution.
  rewrite Hdebit. simpl. rewrite Hnonzero. reflexivity.
Qed.

(* ------------------------------------------------------------------ *)
(** ** Transaction numbers                                             *)
(* ------------------------------------------------------------------ *)

Lemma append_empty_r (a b : string) :
  (a ++ b)%string = EmptyString -> b = EmptyString.
Proof. destruct a; simpl; [auto|discriminate]. Qed.

Lemma transaction_no_truthy
  (interval : ReportingPeriod.t -> ReportingPeriod.Interval)
  (transaction_no_prefix : Transaction.TransactionType -> string)
  (self : Transaction.t) (session : Transaction.AccountingSession)
  (ty : Transaction.TransactionType) (p : ReportingPeriod.t) :
  Py.truthy_str
    (Some (Transaction._transaction_no interval transaction_no_prefix self
             session ty p)) = true.
Proof.
  unfold Py.truthy_str, Transaction._transaction_no.
  destruct (String.eqb _ EmptyString) eqn:E; [|reflexivity].
  apply String.eqb_eq in E.
  apply append_empty_r in E. apply append_empty_r in E. discriminate.
Qed.

Section NumberFacts.

Variable get_period :
  Transaction.AccountingSession -> option Py.datetime
  -> exception + ReportingPeriod.t.
Variable interval : ReportingPeriod.t -> ReportingPeriod.Interval.
Variable transaction_no_prefix : Transaction.TransactionType -> string.

(** What a successful [validate] does to [transaction_no]. *)
Lemma validate_numbering (session : Transaction.AccountingSession)
  (self self' : Transaction.t) :
  Transaction.validate get_period interval transaction_no_prefix session self
  = Return self' tt ->
  exists p,
    get_period session (Transaction.transaction_date self) = inr p
    /\ Transaction.transaction_no self'
       = if Py.truthy_str (Transaction.transaction_no self)
         then Transaction.transaction_no self
         else Some (Transaction._transaction_no interval transaction_no_prefix
                      self session (Transaction.transaction_type self) p).
Proof.
  run_method.
  destruct (Transaction.is_posted self); [discriminate|].
  destruct (Transaction.session_get_Account session _) as [account|];
    [|discriminate].
  destruct (get_period session _) as [e|p]; simpl; [discriminate|].
  destruct (ReportingPeriod.Status_eqb _ ReportingPeriod.CLOSED);
    [discriminate|].
  destruct (_ && _); [discriminate|].
  destruct (_ && _); [discriminate|].
  destruct (_ && _); [discriminate|].
  intros Hrun. apply result_eta in Hrun as [Hstate _].
  exists p. split; [reflexivity|].
  destruct (Py.truthy_str (Transaction.transaction_no self)); simpl in Hstate;
    rewrite check_redundant_state in Hstate; subst self'; reflexivity.
Qed.

End NumberFacts.

(** C9 (as amended): a successful [validate] of a Transaction without a
    [transaction_no] assigns the string
    [{prefix}{period_count:02}/{sequence:04}], with the configured prefix of
    the transaction type, the [period_count] of the owning period and, as
    sequence, [session_index] (1 when unset) plus the number of stored
    Transactions of the same entity and type dated strictly after the start
    of the owning period, counted without an upper bound on the date and
    with the deleted rows; a Transaction that has a [transaction_no] keeps
    it, so a number once assigned is not assigned again. *)
Theorem validate_assigns_transaction_no
  (get_period : Transaction.AccountingSession -> option Py.datetime
                -> exception + ReportingPeriod.t)
  (interval : ReportingPeriod.t -> ReportingPeriod.Interval)
  (transaction_no_prefix : Transaction.TransactionType -> string)
  (session : Transaction.AccountingSession) (self self' : Transaction.t) :
  Transaction.validate get_period interval transaction_no_prefix session self
  = Return self' tt ->
  exists p,
    get_period session (Transaction.transaction_date self) = inr p
    /\ (Py.truthy_str (Transaction.transaction_no self) = false ->
        Transaction.transaction_no self'
        = Some
            (transaction_no_prefix (Transaction.transaction_type self)
             ++ Py.format_0w 2 (ReportingPeriod.period_count p)
             ++ "/"
             ++ Py.format_0w 4
                  (Z.of_nat
                     (List.length
                        (filter
                           (fun row =>
                              Transaction.TransactionType_eqb
                                (Transaction.transaction_type row)
                                (Transaction.transaction_type self)
                              && match Transaction.transaction_date row with
                                 | Some d =>
                                     (ReportingPeriod.start (interval p)
                                      <? d)%Z
                                 | None => false
                                 end
                              && (Transaction.entity_id row
                                  =? Transaction.entity_id self)%Z)
                           (Transaction.transactions session)))
                   + match Transaction.session_index self with
                     | Some i => i
                     | None => 1
                     end)%Z)%string)
    /\ (Py.truthy_str (Transaction.transaction_no self) = true ->
        Transaction.transaction_no self' = Transaction.transaction_no self)
    /\ (forall session2 self'',
           Transaction.validate get_period interval transaction_no_prefix
             session2 self' = Return self'' tt ->
           Transaction.transaction_no self''
           = Transaction.transaction_no self').
Proof.
  intros Hrun.
  destruct (validate_numbering _ _ _ _ _ _ Hrun) as (p & Hperiod & Hno).
  exists p. split; [exact Hperiod|].
  split; [|split].
  - intros Hunset. rewrite Hno, Hunset. reflexivity.
  - intros Hset. rewrite Hno, Hset. reflexivity.
  - intros session2 self'' Hagain.
    destruct (validate_numbering _ _ _ _ _ _ Hagain) as (p2 & _ & Hno2).
    assert (Htruthy : Py.truthy_str (Transaction.transaction_no self') = true).
    { rewrite Hno.
      destruct (Py.truthy_str (Transaction.transaction_no self)) eqn:E;
        [exact E|apply transaction_no_truthy]. }
    rewrite Hno2, Htruthy. reflexivity.
Qed.

Lemma validate_assigns_transaction_no_witness :
  Transaction.validate (Sample.get_period ReportingPeriod.OPEN)
    Sample.interval Sample.transaction_no_prefix Sample.session
    Sample.cash_sale
  = Return
      (Transaction.set_transaction_no
         (Transaction.set_currency_id Sample.cash_sale (Some 7))
         (Some "CS01/0001"%string)) tt
  /\ exists p,
       Sample.get_period ReportingPeriod.OPEN Sample.session
         (Transaction.transaction_date Sample.cash_sale) = inr p
       /\ forall session2 self'',
            Transaction.validate (Sample.get_period ReportingPeriod.OPEN)
              Sample.interval Sample.transaction_no_prefix session2
              (Transaction.set_transaction_no
                 (Transaction.set_currency_id Sample.cash_sale (Some 7))
                 (Some "CS01/0001"%string)) = Return self'' tt ->
            Transaction.transaction_no self'' = Some "CS01/0001"%string.
Proof.
  split; [reflexivity|].
  destruct (validate_assigns_transaction_no
              (Sample.get_period ReportingPeriod.OPEN) Sample.interval
              Sample.transaction_no_prefix Sample.session Sample.cash_sale
              (Transaction.set_transaction_no
                 (Transaction.set_currency_id Sample.cash_sale (Some 7))
                 (Some "CS01/0001"%string))
              eq_refl) as (p & Hperiod & _ & _ & Honce).
  exists p. split; [exact Hperiod|exact Honce].
Defined.

(** Against C9 as stated: a journal entry dated in the 2024 period,
    validated against a session whose only row is a journal entry owned by
    the 2025 period; it is the first of its entity, type and period, and it
    is numbered 0002 (0001 against a session without that row). *)
Lemma transaction_no_counts_later_periods :
  map (fun row =>
         Sample.get_period ReportingPeriod.ADJUSTING Sample.session_next_year
           (Transaction.transaction_date row))
    (Transaction.transactions Sample.session_next_year)
  = [inr Sample.period_2025]
  /\ Sample.get_period ReportingPeriod.ADJUSTING Sample.session_next_year
       (Transaction.transaction_date (Sample.journal_entry 100))
     = inr (Sample.period_2024 ReportingPeriod.ADJUSTING)
  /\ Transaction.validate (Sample.get_period ReportingPeriod.ADJUSTING)
       Sample.interval Sample.transaction_no_prefix Sample.session_next_year
       (Sample.journal_entry 100)
     = Return
         (Transaction.set_transaction_no
            (Transaction.set_currency_id (Sample.journal_entry 100) (Some 7))
            (Some "JN01/0002"%string)) tt
  /\ Transaction.validate (Sample.get_period ReportingPeriod.ADJUSTING)
       Sample.interval Sample.transaction_no_prefix Sample.session
       (Sample.journal_entry 100)
     = Return
         (Transaction.set_transaction_no
            (Transaction.set_currency_id (Sample.journal_entry 100) (Some 7))
            (Some "JN01/0001"%string)) tt.
Proof. repeat split. Qed.

(** A cash sale that already carries a number keeps it. *)
Example numbered_sale_keeps_number :
  Transaction.transaction_no
    (state_of
       (Transaction.validate (Sample.get_period ReportingPeriod.OPEN)
          Sample.interval Sample.transaction_no_prefix Sample.session
          Sample.numbered_sale))
  = Some "CS01/0007"%string.
Proof. reflexivity. Qed.

(* ------------------------------------------------------------------ *)
(** ** More on the validation sequence                                 *)
(* ------------------------------------------------------------------ *)

Lemma check_redundant_returns (account_id : option Z)
  (items : list LineItem.t) (self : Transaction.t) :
  Forall (fun l => LineItem.account_id l <> account_id) items ->
  Transaction.check_redundant account_id items self = Return self tt.
Proof.
  induction 1 as [|l items Hl _ IH]; simpl.
  - reflexivity.
  - destruct (Py.eq_int (LineItem.account_id l) account_id) eqn:E.
    + apply eq_int_true in E. contradiction.
    + exact IH.
Qed.

(** The loop over the line items stops at the first one that sits on the
    main account. *)
Lemma check_redundant_cases (account_id : option Z)
  (items : list LineItem.t) (self : Transaction.t) :
  (Forall (fun l => LineItem.account_id l <> account_id) items
   /\ Transaction.check_redundant account_id items self = Return self tt)
  \/ exists before l after,
       items = before ++ l :: after
       /\ Forall (fun l' => LineItem.account_id l' <> account_id) before
       /\ LineItem.account_id l = account_id
       /\ Transaction.check_redundant account_id items self
          = Raise self (RedundantTransactionError l).
Proof.
  induction items as [|l items IH]; simpl.
  - left. split; [constructor|reflexivity].
  - destruct (Py.eq_int (LineItem.account_id l) account_id) eqn:E.
    + apply eq_int_true in E. right. exists [], l, items.
      repeat split; [constructor|exact E].
    + assert (Hl : LineItem.account_id l <> account_id).
      { intros H. apply eq_int_true in H. congruence. }
      destruct IH as [[Hall Hret]|(before & l' & after & -> & Hb & Hl' & Hr)].
      * left. split; [constructor; assumption|exact Hret].
      * right. exists (l :: before), l', after.
        repeat split; [constructor; assumption|exact Hl'|exact Hr].
Qed.

Section ValidateShape.

Variable get_period :
  Transaction.AccountingSession -> option Py.datetime
  -> exception + ReportingPeriod.t.
Variable interval : ReportingPeriod.t -> ReportingPeriod.Interval.
Variable transaction_no_prefix : Transaction.TransactionType -> string.

Lemma validate_past_period_checks (session : Transaction.AccountingSession)
  (self : Transaction.t) (account : Account.t) (p : ReportingPeriod.t) :
  Transaction.is_posted self = false ->
  Transaction.session_get_Account session (Transaction.account_id self)
  = Some account ->
  get_period session (Transaction.transaction_date self) = inr p ->
  period_admits interval self p ->
  Transaction.validate get_period interval transaction_no_prefix session self
  = Transaction.check_redundant (Transaction.account_id self)
      (Transaction.line_items self) (validated interval transaction_no_prefix session self
         account p).
Proof.
  intros Hposted Haccount Hperiod (Hclosed & Hadjusting & Hdate & Htype).
  unfold validated. run_method. rewrite Hposted, Haccount, Hperiod. simpl.
  destruct (ReportingPeriod.Status_eqb _ ReportingPeriod.CLOSED) eqn:E1.
  { apply Status_eqb_true in E1. contradiction. }
  destruct (ReportingPeriod.Status_eqb _ ReportingPeriod.ADJUSTING
            && negb (Transaction.TransactionType_eqb _ _)) eqn:E2.
  { apply andb_true_iff in E2 as [Ea Et]. apply Status_eqb_true in Ea.
    rewrite (Hadjusting Ea) in Et. discriminate. }
  destruct (Py.truthy_datetime _ && Py.eq_datetime _ _) eqn:E3.
  { apply andb_true_iff in E3 as [_ Ed]. apply eq_int_true in Ed.
    contradiction. }
  destruct (Py.truthy_int _ && _) eqn:E4.
  { apply andb_true_iff in E4 as [Ei Eh]. rewrite (Htype Ei) in Eh.
    discriminate. }
  destruct (Py.truthy_str (Transaction.transaction_no self)); reflexivity.
Qed.

Lemma validate_return_inv (session : Transaction.AccountingSession)
  (self self' : Transaction.t) :
  Transaction.validate get_period interval transaction_no_prefix session self
  = Return self' tt ->
  Transaction.is_posted self = false
  /\ exists account p,
       Transaction.session_get_Account session (Transaction.account_id self)
       = Some account
       /\ get_period session (Transaction.transaction_date self) = inr p
       /\ period_admits interval self p
       /\ Forall
            (fun l => LineItem.account_id l <> Transaction.account_id self)
            (Transaction.line_items self)
       /\ self' = validated interval transaction_no_prefix session self account p.
Proof.
  intros Hrun.
  destruct (Transaction.is_posted self) eqn:Hposted.
  { run_method. rewrite Hposted in Hrun. discriminate. }
  split; [reflexivity|].
  destruct (Transaction.session_get_Account session
              (Transaction.account_id self)) as [account|] eqn:Haccount.
  2:{ run_method. rewrite Hposted, Haccount in Hrun. discriminate. }
  destruct (get_period session (Transaction.transaction_date self))
    as [e|p] eqn:Hperiod.
  { run_method. rewrite Hposted, Haccount, Hperiod in Hrun. discriminate. }
  exists account, p. split; [reflexivity|]. split; [reflexivity|].
  assert (Hadmits : period_admits interval self p).
  { unfold period_admits. run_method.
    rewrite Hposted, Haccount, Hperiod in Hrun. simpl in Hrun.
    destruct (ReportingPeriod.Status_eqb _ ReportingPeriod.CLOSED) eqn:E1;
      [discriminate|].
    destruct (ReportingPeriod.Status_eqb _ ReportingPeriod.ADJUSTING
              && negb (Transaction.TransactionType_eqb _ _)) eqn:E2;
      [discriminate|].
    destruct (Py.truthy_datetime _ && Py.eq_datetime _ _) eqn:E3;
      [discriminate|].
    destruct (Py.truthy_int _ && _) eqn:E4; [discriminate|].
    clear Hrun. repeat split.
    - intros H. apply Status_eqb_true in H. congruence.
    - intros H. apply Status_eqb_true in H. rewrite H in E2. simpl in E2.
      apply negb_false_iff, TransactionType_eqb_true in E2. exact E2.
    - intros H. rewrite H in E3. simpl in E3. rewrite Z.eqb_refl in E3.
      discriminate.
    - intros H. rewrite H in E4. simpl in E4.
      destruct (Transaction.transaction_type_history_deleted self);
        [reflexivity|discriminate]. }
  split; [exact Hadmits|].
  rewrite (validate_past_period_checks session self account p Hposted
             Haccount Hperiod Hadmits) in Hrun.
  destruct (check_redundant_cases (Transaction.account_id self)
              (Transaction.line_items self)
              (validated interval transaction_no_prefix session self
         account p))
    as [[Hall Hret]|(before & l & after & _ & _ & _ & Hraise)].
  - split; [exact Hall|]. rewrite Hret in Hrun. now injection Hrun as <-.
  - rewrite Hraise in Hrun. discriminate.
Qed.

Lemma validated_fields (session : Transaction.AccountingSession)
  (self : Transaction.t) (account : Account.t) (p : ReportingPeriod.t) :
  exists n,
    validated interval transaction_no_prefix session self account p
    = Transaction.set_transaction_no
        (Transaction.set_currency_id self (Some (Account.currency_id account)))
        n
    /\ Py.truthy_str n = true.
Proof.
  unfold validated.
  destruct (Py.truthy_str (Transaction.transaction_no self)) eqn:E.
  - exists (Transaction.transaction_no self). split; [|exact E].
    destruct self; reflexivity.
  - eexists. split; [reflexivity|apply transaction_no_truthy].
Qed.

End ValidateShape.

(** X1: [validate] returns normally exactly when the Transaction is
    unposted, its main account and its reporting period resolve, the period
    is neither CLOSED nor (for anything but a journal entry) ADJUSTING, the
    date is not the start of the period, a persisted Transaction has no
    replaced transaction type, and no line item sits on the main account. *)
Theorem validate_succeeds_iff
  (get_period : Transaction.AccountingSession -> option Py.datetime
                -> exception + ReportingPeriod.t)
  (interval : ReportingPeriod.t -> ReportingPeriod.Interval)
  (transaction_no_prefix : Transaction.TransactionType -> string)
  (session : Transaction.AccountingSession) (self : Transaction.t) :
  (exists self',
      Transaction.validate get_period interval transaction_no_prefix session
        self = Return self' tt)
  <->
  (Transaction.is_posted self = false
   /\ (exists account,
          Transaction.session_get_Account session
            (Transaction.account_id self) = Some account)
   /\ (exists p,
          get_period session (Transaction.transaction_date self) = inr p
          /\ ReportingPeriod.status p <> ReportingPeriod.CLOSED
          /\ (ReportingPeriod.status p = ReportingPeriod.ADJUSTING ->
              Transaction.transaction_type self = Transaction.JOURNAL_ENTRY)
          /\ Transaction.transaction_date self
             <> Some (ReportingPeriod.start (interval p)))
   /\ (Py.truthy_int (Transaction.id self) = true ->
       Transaction.transaction_type_history_deleted self = [])
   /\ Forall
        (fun l => LineItem.account_id l <> Transaction.account_id self)
        (Transaction.line_items self)).
Proof.
  split.
  - intros [self' Hrun].
    destruct (validate_return_inv _ _ _ _ _ _ Hrun)
      as (Hposted & account & p & Haccount & Hperiod & Hadmits & Hall & _).
    destruct Hadmits as (Hclosed & Hadjusting & Hdate & Htype).
    split; [exact Hposted|]. split; [now exists account|].
    split; [exists p; repeat split; assumption|].
    split; assumption.
  - intros (Hposted & [account Haccount] & (p & Hperiod & Hc & Ha & Hd)
            & Htype & Hall).
    exists (validated interval transaction_no_prefix session self account p).
    rewrite (validate_past_period_checks get_period interval
               transaction_no_prefix session self account p Hposted Haccount
               Hperiod (conj Hc (conj Ha (conj Hd Htype)))).
    apply check_redundant_returns.
    exact Hall.
Qed.

(** X2: a Transaction that [validate] accepted is accepted again by the same
    session and comes back as it is: validation is idempotent. *)
Theorem validate_idempotent
  (get_period : Transaction.AccountingSession -> option Py.datetime
                -> exception + ReportingPeriod.t)
  (interval : ReportingPeriod.t -> ReportingPeriod.Interval)
  (transaction_no_prefix : Transaction.TransactionType -> string)
  (session : Transaction.AccountingSession) (self self' : Transaction.t) :
  Transaction.validate get_period interval transaction_no_prefix session self
  = Return self' tt ->
  Transaction.validate get_period interval transaction_no_prefix session self'
  = Return self' tt.
Proof.
  intros Hrun.
  destruct (validate_return_inv _ _ _ _ _ _ Hrun)
    as (Hposted & account & p & Haccount & Hperiod & Hadmits & Hall & ->).
  destruct (validated_fields interval transaction_no_prefix session self
              account p) as (n & Hfields & Htruthy).
  rewrite Hfields.
  rewrite (validate_past_period_checks get_period interval
             transaction_no_prefix session _ account p);
    try assumption.
  unfold validated. simpl. rewrite Htruthy.
  apply check_redundant_returns. exact Hall.
Qed.

Lemma validate_idempotent_witness :
  Transaction.validate (Sample.get_period ReportingPeriod.OPEN)
    Sample.interval Sample.transaction_no_prefix Sample.session
    Sample.cash_sale
  = Return
      (Transaction.set_transaction_no
         (Transaction.set_currency_id Sample.cash_sale (Some 7))
         (Some "CS01/0001"%string)) tt
  /\ Transaction.validate (Sample.get_period ReportingPeriod.OPEN)
       Sample.interval Sample.transaction_no_prefix Sample.session
       (Transaction.set_transaction_no
          (Transaction.set_currency_id Sample.cash_sale (Some 7))
          (Some "CS01/0001"%string))
     = Return
         (Transaction.set_transaction_no
            (Transaction.set_currency_id Sample.cash_sale (Some 7))
            (Some "CS01/0001"%string)) tt.
Proof.
  split; [reflexivity|].
  exact (validate_idempotent (Sample.get_period ReportingPeriod.OPEN)
           Sample.interval Sample.transaction_no_prefix Sample.session
           Sample.cash_sale _ eq_refl).
Defined.

(** X3: the exceptions [validate] can raise are PostedTransactionError, the
    ValueError of a missing main account, whatever the period lookup raises,
    the two period-status errors for the owning period,
    InvalidTransactionDateError, InvalidTransactionTypeError, and
    RedundantTransactionError for one of its own line items that sits on the
    main account. *)
Theorem validate_raises_only
  (get_period : Transaction.AccountingSession -> option Py.datetime
                -> exception + ReportingPeriod.t)
  (interval : ReportingPeriod.t -> ReportingPeriod.Interval)
  (transaction_no_prefix : Transaction.TransactionType -> string)
  (session : Transaction.AccountingSession) (self : Transaction.t)
  (e : exception) :
  raised
    (Transaction.validate get_period interval transaction_no_prefix session
       self) = Some e ->
  e = PostedTransactionError "A Posted Transaction cannot be modified."
  \/ e = ValueError "The main Account is required"
  \/ get_period session (Transaction.transaction_date self) = inl e
  \/ (exists p,
         get_period session (Transaction.transaction_date self) = inr p
         /\ (e = ClosedReportingPeriodError p
             \/ e = AdjustingReportingPeriodError p))
  \/ e = InvalidTransactionDateError
  \/ e = InvalidTransactionTypeError
  \/ exists l,
       In l (Transaction.line_items self)
       /\ LineItem.account_id l = Transaction.account_id self
       /\ e = RedundantTransactionError l.
Proof.
  run_method.
  destruct (Transaction.is_posted self); [intros [= <-]; auto|].
  destruct (Transaction.session_get_Account session _) as [account|];
    [|intros [= <-]; auto].
  destruct (get_period session _) as [e'|p]; simpl;
    [intros [= <-]; auto|].
  destruct (ReportingPeriod.Status_eqb _ ReportingPeriod.CLOSED).
  { intros [= <-]. do 3 right. left. exists p. auto. }
  destruct (_ && _).
  { intros [= <-]. do 3 right. left. exists p. auto. }
  destruct (_ && _); [intros [= <-]; auto 6|].
  destruct (_ && _); [intros [= <-]; auto 7|].
  intros Hraised. do 6 right.
  destruct (negb _); simpl in Hraised;
    match type of Hraised with
    | raised (Transaction.check_redundant ?a ?items ?st) = _ =>
        destruct (check_redundant_cases a items st)
          as [[_ Hret]|(before & l & after & Hitems & _ & Hl & Hraise)];
        [rewrite Hret in Hraised; discriminate|];
        rewrite Hraise in Hraised; injection Hraised as <-;
        exists l; simpl in Hitems, Hl; rewrite Hitems;
        split; [apply in_or_app; right; left; reflexivity|];
        split; [exact Hl|reflexivity]
    end.
Qed.

Lemma validate_raises_only_witness :
  raised
    (Transaction.validate (Sample.get_period ReportingPeriod.OPEN)
       Sample.interval Sample.transaction_no_prefix Sample.session
       Sample.redundant_sale)
  = Some (RedundantTransactionError Sample.bank_line)
  /\ (RedundantTransactionError Sample.bank_line
      = PostedTransactionError "A Posted Transaction cannot be modified."
      \/ RedundantTransactionError Sample.bank_line
         = ValueError "The main Account is required"
      \/ Sample.get_period ReportingPeriod.OPEN Sample.session
           (Transaction.transaction_date Sample.redundant_sale)
         = inl (RedundantTransactionError Sample.bank_line)
      \/ (exists p,
             Sample.get_period ReportingPeriod.OPEN Sample.session
               (Transaction.transaction_date Sample.redundant_sale) = inr p
             /\ (RedundantTransactionError Sample.bank_line
                 = ClosedReportingPeriodError p
                 \/ RedundantTransactionError Sample.bank_line
                    = AdjustingReportingPeriodError p))
      \/ RedundantTransactionError Sample.bank_line
         = InvalidTransactionDateError
      \/ RedundantTransactionError Sample.bank_line
         = InvalidTransactionTypeError
      \/ exists l,
           In l (Transaction.line_items Sample.redundant_sale)
           /\ LineItem.account_id l
              = Transaction.account_id Sample.redundant_sale
           /\ RedundantTransactionError Sample.bank_line
              = RedundantTransactionError l).
Proof.
  split; [reflexivity|].
  exact (validate_raises_only (Sample.get_period ReportingPeriod.OPEN)
           Sample.interval Sample.transaction_no_prefix Sample.session
           Sample.redundant_sale (RedundantTransactionError Sample.bank_line)
           eq_refl).
Defined.

(** X4: when the checks before the numbering pass and a line item sits on
    the main account, [validate] raises RedundantTransactionError for the
    first such line item; the Transaction it leaves already carries the
    currency of the main account and a transaction number. *)
Theorem validate_redundant_after_numbering
  (get_period : Transaction.AccountingSession -> option Py.datetime
                -> exception + ReportingPeriod.t)
  (interval : ReportingPeriod.t -> ReportingPeriod.Interval)
  (transaction_no_prefix : Transaction.TransactionType -> string)
  (session : Transaction.AccountingSession) (self : Transaction.t)
  (account : Account.t) (p : ReportingPeriod.t)
  (before after : list LineItem.t) (l : LineItem.t) :
  Transaction.is_posted self = false ->
  Transaction.session_get_Account session (Transaction.account_id self)
  = Some account ->
  get_period session (Transaction.transaction_date self) = inr p ->
  period_admits interval self p ->
  Transaction.line_items self = before ++ l :: after ->
  Forall (fun l' => LineItem.account_id l' <> Transaction.account_id self)
    before ->
  LineItem.account_id l = Transaction.account_id self ->
  exists state,
    Transaction.validate get_period interval transaction_no_prefix session
      self = Raise state (RedundantTransactionError l)
    /\ Transaction.currency_id state = Some (Account.currency_id account)
    /\ Py.truthy_str (Transaction.transaction_no state) = true.
Proof.
  intros Hposted Haccount Hperiod Hadmits Hitems Hbefore Hl.
  exists (validated interval transaction_no_prefix session self account p).
  rewrite (validate_past_period_checks get_period interval
             transaction_no_prefix session self account p Hposted Haccount
             Hperiod Hadmits).
  destruct (validated_fields interval transaction_no_prefix session self
              account p) as (n & Hfields & Htruthy).
  split.
  - rewrite Hitems. clear Hitems.
    induction Hbefore as [|l' before Hl' _ IH]; simpl.
    + destruct (Py.eq_int _ _) eqn:E; [reflexivity|].
      rewrite Hl in E.
      assert (H : Py.eq_int (Transaction.account_id self)
                    (Transaction.account_id self) = true)
        by (apply eq_int_true; reflexivity).
      congruence.
    + destruct (Py.eq_int (LineItem.account_id l') _) eqn:E; [|exact IH].
      apply eq_int_true in E. contradiction.
  - rewrite Hfields. split; [reflexivity|exact Htruthy].
Qed.

Lemma validate_redundant_after_numbering_witness :
  exists state,
    Transaction.validate (Sample.get_period ReportingPeriod.OPEN)
      Sample.interval Sample.transaction_no_prefix Sample.session
      Sample.redundant_sale
    = Raise state (RedundantTransactionError Sample.bank_line)
    /\ Transaction.currency_id state = Some (Account.currency_id Sample.bank)
    /\ Py.truthy_str (Transaction.transaction_no state) = true.
Proof.
  apply (validate_redundant_after_numbering
           (Sample.get_period ReportingPeriod.OPEN) Sample.interval
           Sample.transaction_no_prefix Sample.session Sample.redundant_sale
           Sample.bank (Sample.period_2024 ReportingPeriod.OPEN)
           [LineItem.set_credited Sample.sale_line true] []
           Sample.bank_line eq_refl eq_refl eq_refl).
  - repeat split; simpl; discriminate.
  - reflexivity.
  - constructor; [simpl; discriminate|constructor].
  - reflexivity.
Defined.

(** X5: once the period checks pass, a persisted Transaction (truthy [id])
    whose [transaction_type] has a replaced value on record is rejected with
    InvalidTransactionTypeError; a Transaction without an [id] is never
    rejected with that error by [validate] itself. *)
Theorem validate_type_change
  (get_period : Transaction.AccountingSession -> option Py.datetime
                -> exception + ReportingPeriod.t)
  (interval : ReportingPeriod.t -> ReportingPeriod.Interval)
  (transaction_no_prefix : Transaction.TransactionType -> string)
  (session : Transaction.AccountingSession) (self : Transaction.t)
  (account : Account.t) (p : ReportingPeriod.t) :
  Transaction.is_posted self = false ->
  Transaction.session_get_Account session (Transaction.account_id self)
  = Some account ->
  get_period session (Transaction.transaction_date self) = inr p ->
  (ReportingPeriod.status p <> ReportingPeriod.CLOSED ->
   (ReportingPeriod.status p = ReportingPeriod.ADJUSTING ->
    Transaction.transaction_type self = Transaction.JOURNAL_ENTRY) ->
   Transaction.transaction_date self
   <> Some (ReportingPeriod.start (interval p)) ->
   Py.truthy_int (Transaction.id self) = true ->
   Transaction.transaction_type_history_deleted self <> [] ->
   Transaction.validate get_period interval transaction_no_prefix session self
   = Raise
       (Transaction.set_currency_id self (Some (Account.currency_id account)))
       InvalidTransactionTypeError)
  /\ (Py.truthy_int (Transaction.id self) = false ->
      raised
        (Transaction.validate get_period interval transaction_no_prefix
           session self) <> Some InvalidTransactionTypeError).
Proof.
  intros Hposted Haccount Hperiod. split.
  - intros Hclosed Hadjusting Hdate Hid Hhistory.
    run_method. rewrite Hposted, Haccount, Hperiod. simpl.
    destruct (ReportingPeriod.Status_eqb _ ReportingPeriod.CLOSED) eqn:E1.
    { apply Status_eqb_true in E1. contradiction. }
    destruct (ReportingPeriod.Status_eqb _ ReportingPeriod.ADJUSTING
              && negb (Transaction.TransactionType_eqb _ _)) eqn:E2.
    { apply andb_true_iff in E2 as [Ea Et]. apply Status_eqb_true in Ea.
      rewrite (Hadjusting Ea) in Et. discriminate. }
    destruct (Py.truthy_datetime _ && Py.eq_datetime _ _) eqn:E3.
    { apply andb_true_iff in E3 as [_ Ed]. apply eq_int_true in Ed.
      contradiction. }
    rewrite Hid.
    destruct (Transaction.transaction_type_history_deleted self);
      [contradiction|reflexivity].
  - intros Hid. run_method. rewrite Hposted, Haccount, Hperiod. simpl.
    destruct (ReportingPeriod.Status_eqb _ _); [discriminate|].
    destruct (_ && _); [discriminate|].
    destruct (_ && _); [discriminate|].
    rewrite Hid. simpl.
    destruct (negb _); simpl;
      (intros H; apply check_redundant_raises in H as [l Hl]; discriminate).
Qed.

Lemma validate_type_change_witness :
  Transaction.is_posted Sample.retyped_sale = false
  /\ Py.truthy_int (Transaction.id Sample.retyped_sale) = true
  /\ Transaction.validate (Sample.get_period ReportingPeriod.OPEN)
       Sample.interval Sample.transaction_no_prefix Sample.session
       Sample.retyped_sale
     = Raise
         (Transaction.set_currency_id Sample.retyped_sale
            (Some (Account.currency_id Sample.bank)))
         InvalidTransactionTypeError.
Proof.
  split; [reflexivity|]. split; [reflexivity|].
  apply (proj1
           (validate_type_change (Sample.get_period ReportingPeriod.OPEN)
              Sample.interval Sample.transaction_no_prefix Sample.session
              Sample.retyped_sale Sample.bank
              (Sample.period_2024 ReportingPeriod.OPEN)
              eq_refl eq_refl eq_refl)).
  - simpl. discriminate.
  - simpl. discriminate.
  - simpl. discriminate.
  - reflexivity.
  - simpl. discriminate.
Defined.

(** X6: a [validate] that fails does not touch [transaction_no], unless the
    failure is the RedundantTransactionError of one of the Transaction's own
    line items, which is raised after the numbering. *)
Theorem validate_failure_keeps_number
  (get_period : Transaction.AccountingSession -> option Py.datetime
                -> exception + ReportingPeriod.t)
  (interval : ReportingPeriod.t -> ReportingPeriod.Interval)
  (transaction_no_prefix : Transaction.TransactionType -> string)
  (session : Transaction.AccountingSession) (self : Transaction.t)
  (e : exception) :
  raised
    (Transaction.validate get_period interval transaction_no_prefix session
       self) = Some e ->
  Transaction.transaction_no
    (state_of
       (Transaction.validate get_period interval transaction_no_prefix
          session self))
  = Transaction.transaction_no self
  \/ exists l,
       In l (Transaction.line_items self) /\ e = RedundantTransactionError l.
Proof.
  run_method.
  destruct (Transaction.is_posted self); [left; reflexivity|].
  destruct (Transaction.session_get_Account session _) as [account|];
    [|left; reflexivity].
  destruct (get_period session _) as [e'|p]; simpl; [left; reflexivity|].
  destruct (ReportingPeriod.Status_eqb _ ReportingPeriod.CLOSED);
    [left; reflexivity|].
  destruct (_ && _); [left; reflexivity|].
  destruct (_ && _); [left; reflexivity|].
  destruct (_ && _); [left; reflexivity|].
  intros Hraised. right.
  destruct (negb _); simpl in Hraised;
    match type of Hraised with
    | raised (Transaction.check_redundant ?a ?items ?st) = _ =>
        destruct (check_redundant_cases a items st)
          as [[_ Hret]|(before & l & after & Hitems & _ & _ & Hraise)];
        [rewrite Hret in Hraised; discriminate|];
        rewrite Hraise in Hraised; injection Hraised as <-;
        exists l; simpl in Hitems; rewrite Hitems;
        split; [apply in_or_app; right; left; reflexivity|reflexivity]
    end.
Qed.

Lemma validate_failure_keeps_number_witness :
  raised
    (Transaction.validate (Sample.get_period ReportingPeriod.CLOSED)
       Sample.interval Sample.transaction_no_prefix Sample.session
       Sample.cash_sale)
  = Some (ClosedReportingPeriodError (Sample.period_2024 ReportingPeriod.CLOSED))
  /\ (Transaction.transaction_no
        (state_of
           (Transaction.validate (Sample.get_period ReportingPeriod.CLOSED)
              Sample.interval Sample.transaction_no_prefix Sample.session
              Sample.cash_sale))
      = Transaction.transaction_no Sample.cash_sale
      \/ exists l,
           In l (Transaction.line_items Sample.cash_sale)
           /\ ClosedReportingPeriodError
                (Sample.period_2024 ReportingPeriod.CLOSED)
              = RedundantTransactionError l).
Proof.
  split; [reflexivity|].
  exact (validate_failure_keeps_number
           (Sample.get_period ReportingPeriod.CLOSED) Sample.interval
           Sample.transaction_no_prefix Sample.session Sample.cash_sale _
           eq_refl).
Defined.

(* ------------------------------------------------------------------ *)
(** ** More on [contribution]                                          *)
(* ------------------------------------------------------------------ *)

(** The two queries of [contribution] read the rows the Transaction posted
    to the account, one side each. *)
Lemma contribution_query_posted_to (self : Transaction.t)
  (session : Transaction.AccountingSession) (account : Account.t)
  (entry_type : Balance.BalanceType) :
  Transaction.contribution_query self session account entry_type
  = Py.sql_sum
      (map Ledger.amount
         (entries_of entry_type (posted_to self session account))).
Proof.
  unfold Transaction.contribution_query, entries_of, posted_to.
  f_equal. f_equal.
  induction (Transaction.ledger session) as [|row rows IH]; simpl.
  - reflexivity.
  - destruct ((Ledger.entity_id row =? Transaction.entity_id self)
              && Py.eq_int (Ledger.transaction_id row) (Transaction.id self)
              && Py.eq_int (Ledger.currency_id row)
                   (Transaction.currency_id self)
              && Py.eq_int (Ledger.post_account_id row)
                   (Some (Account.id account))); simpl.
    + destruct (Balance.BalanceType_eqb _ _); simpl; rewrite IH; reflexivity.
    + exact IH.
Qed.

Lemma sql_sum_some (xs : list Q) :
  xs <> [] -> Py.sql_sum xs = Some (Py.sum xs).
Proof. destruct xs; [intros H; now elim H|reflexivity]. Qed.

Lemma entry_total_entries_of (entry_type : Balance.BalanceType)
  (rows : list Ledger.t) :
  entry_total entry_type rows
  = Py.sum (map Ledger.amount (entries_of entry_type rows)).
Proof. reflexivity. Qed.

(** X7: where a Transaction posted to an account on one side only,
    [contribution] is the net amount posted: the debit sum when there are no
    credit rows and the debit sum is not zero, minus the credit sum when
    there are credit rows and no debit rows. *)
Theorem contribution_one_sided (self : Transaction.t)
  (session : Transaction.AccountingSession) (account : Account.t) :
  (entries_of Balance.CREDIT (posted_to self session account) = [] ->
   ~ (entry_total Balance.DEBIT (posted_to self session account) == 0)%Q ->
   exists d,
     Transaction.contribution self session account = inr d
     /\ (d == net_posted self session account)%Q)
  /\ (entries_of Balance.DEBIT (posted_to self session account) = [] ->
      entries_of Balance.CREDIT (posted_to self session account) <> [] ->
      exists d,
        Transaction.contribution self session account = inr d
        /\ (d == net_posted self session account)%Q).
Proof.
  unfold Transaction.contribution, net_posted.
  rewrite !contribution_query_posted_to, !entry_total_entries_of.
  split.
  - intros Hcredit Hdebit. rewrite Hcredit. simpl.
    destruct (entries_of Balance.DEBIT (posted_to self session account))
      as [|row rows] eqn:Erows.
    { exfalso. apply Hdebit. reflexivity. }
    simpl Py.sql_sum. cbv iota beta.
    unfold Py.truthy_decimal.
    destruct (Qeq_bool _ 0) eqn:Ezero.
    { apply Qeq_bool_iff in Ezero. contradiction. }
    simpl. eexists. split; [reflexivity|].
    change (Py.sum []) with 0%Q. ring.
  - intros Hdebit Hcredit. rewrite Hdebit. simpl.
    rewrite (sql_sum_some _ (fun H => Hcredit (map_eq_nil _ _ H))).
    unfold Py.truthy_decimal.
    destruct (Qeq_bool _ 0) eqn:Ezero; simpl.
    + apply Qeq_bool_iff in Ezero. exists 0%Q. split; [reflexivity|].
      change (Py.sum []) with 0%Q. symmetry. exact Ezero.
    + eexists. split; [reflexivity|].
      change (Py.sum []) with 0%Q. reflexivity.
Qed.

Lemma contribution_one_sided_witness :
  entries_of Balance.CREDIT
    (posted_to Sample.posted_cash_sale
       (fst (state_of (Transaction.post
                         (Sample.session, Sample.cash_sale_with_line))))
       Sample.bank) = []
  /\ exists d,
       Transaction.contribution Sample.posted_cash_sale
         (fst (state_of (Transaction.post
                           (Sample.session, Sample.cash_sale_with_line))))
         Sample.bank = inr d
       /\ (d == net_posted Sample.posted_cash_sale
                  (fst (state_of (Transaction.post
                                    (Sample.session,
                                     Sample.cash_sale_with_line))))
                  Sample.bank)%Q.
Proof.
  split; [reflexivity|].
  apply (proj1
           (contribution_one_sided Sample.posted_cash_sale
              (fst (state_of (Transaction.post
                                (Sample.session, Sample.cash_sale_with_line))))
              Sample.bank)).
  - reflexivity.
  - vm_compute. discriminate.
Defined.

(** X8: [contribution] raises exactly when the Transaction posted no credit
    row to the account and the debit rows it posted there are none or sum to
    zero; what it raises is the TypeError of [0 - None]. *)
Theorem contribution_raises_iff (self : Transaction.t)
  (session : Transaction.AccountingSession) (account : Account.t)
  (e : exception) :
  Transaction.contribution self session account = inl e
  <->
  (entries_of Balance.CREDIT (posted_to self session account) = []
   /\ (entry_total Balance.DEBIT (posted_to self session account) == 0)%Q
   /\ e = TypeError
            "unsupported operand type(s) for -: 'int' and 'NoneType'").
Proof.
  unfold Transaction.contribution.
  rewrite !contribution_query_posted_to, entry_total_entries_of.
  destruct (entries_of Balance.DEBIT (posted_to self session account))
    as [|drow drows];
    destruct (entries_of Balance.CREDIT (posted_to self session account))
      as [|crow crows]; simpl Py.sql_sum; cbv iota beta.
  - split.
    + intros [= <-]. repeat split; reflexivity.
    + intros (_ & _ & ->). reflexivity.
  - split.
    + match goal with
      | |- context [if ?c then _ else _] => destruct c
      end; discriminate.
    + intros (H & _). discriminate.
  - unfold Py.truthy_decimal at 1.
    destruct (Qeq_bool _ 0) eqn:Ezero; simpl.
    + apply Qeq_bool_iff in Ezero. split.
      * intros [= <-]. repeat split; [exact Ezero].
      * intros (_ & _ & ->). reflexivity.
    + split; [discriminate|].
      intros (_ & Hzero & _). apply Qeq_bool_iff in Hzero. congruence.
  - unfold Py.truthy_decimal at 1.
    destruct (Qeq_bool _ 0) eqn:Ezero; simpl.
    + split.
      * match goal with
        | |- context [if ?c then _ else _] => destruct c
        end; discriminate.
      * intros (H & _). discriminate.
    + split; [discriminate|]. intros (H & _). discriminate.
Qed.

(** X9: [contribution] reads nothing but the rows the Transaction itself
    posted to the account in its own currency: two sessions that agree on
    those rows give the same result, whatever else their ledgers hold. *)
Theorem contribution_reads_own_rows (self : Transaction.t)
  (session1 session2 : Transaction.AccountingSession) (account : Account.t) :
  posted_to self session1 account = posted_to self session2 account ->
  Transaction.contribution self session1 account
  = Transaction.contribution self session2 account.
Proof.
  intros Hrows. unfold Transaction.contribution.
  rewrite !contribution_query_posted_to, Hrows. reflexivity.
Qed.

Lemma contribution_reads_own_rows_witness :
  posted_to Sample.compound_entry Sample.compound_session Sample.suspense
  = posted_to Sample.compound_entry
      (Transaction.set_ledger Sample.compound_session
         (Ledger.mk 1 (Some 8) (Some 7) (Some 3) Balance.CREDIT 500
          :: Sample.compound_rows))
      Sample.suspense
  /\ Transaction.contribution Sample.compound_entry Sample.compound_session
       Sample.suspense
     = Transaction.contribution Sample.compound_entry
         (Transaction.set_ledger Sample.compound_session
            (Ledger.mk 1 (Some 8) (Some 7) (Some 3) Balance.CREDIT 500
             :: Sample.compound_rows))
         Sample.suspense.
Proof.
  split; [reflexivity|].
  exact (contribution_reads_own_rows Sample.compound_entry
           Sample.compound_session _ Sample.suspense eq_refl).
Defined.

(* ------------------------------------------------------------------ *)
(** ** More on transaction numbers                                     *)
(* ------------------------------------------------------------------ *)

Lemma uint_of_string_zeros (k : nat) (s : string) :
  NilEmpty.uint_of_string (Py.zeros k ++ s)
  = option_map (Nat.iter k Decimal.D0) (NilEmpty.uint_of_string s).
Proof.
  induction k as [|k IH]; simpl.
  - destruct (NilEmpty.uint_of_string s); reflexivity.
  - rewrite IH. destruct (NilEmpty.uint_of_string s); reflexivity.
Qed.

Lemma of_uint_leading_zeros (k : nat) (d : Decimal.uint) :
  N.of_uint (Nat.iter k Decimal.D0 d) = N.of_uint d.
Proof. induction k as [|k IH]; simpl; [reflexivity|exact IH]. Qed.

Lemma int_of_digits_digits (z : Z) :
  0 <= z -> int_of_digits (Py.digits z) = Some z.
Proof.
  intros Hz. unfold int_of_digits, Py.digits.
  pose proof (Unsigned.of_to (Z.to_N z)) as Hn.
  assert (Hparse :
            exists d,
              NilEmpty.uint_of_string
                (NilZero.string_of_uint (N.to_uint (Z.to_N z))) = Some d
              /\ N.of_uint d = Z.to_N z).
  { destruct (N.to_uint (Z.to_N z)) as [|u|u|u|u|u|u|u|u|u|u] eqn:E.
    - exists (Decimal.D0 Decimal.Nil). split; [reflexivity|exact Hn].
    - exists (Decimal.D0 u).
      split; [exact (NilEmpty.usu (Decimal.D0 u))|exact Hn].
    - exists (Decimal.D1 u).
      split; [exact (NilEmpty.usu (Decimal.D1 u))|exact Hn].
    - exists (Decimal.D2 u).
      split; [exact (NilEmpty.usu (Decimal.D2 u))|exact Hn].
    - exists (Decimal.D3 u).
      split; [exact (NilEmpty.usu (Decimal.D3 u))|exact Hn].
    - exists (Decimal.D4 u).
      split; [exact (NilEmpty.usu (Decimal.D4 u))|exact Hn].
    - exists (Decimal.D5 u).
      split; [exact (NilEmpty.usu (Decimal.D5 u))|exact Hn].
    - exists (Decimal.D6 u).
      split; [exact (NilEmpty.usu (Decimal.D6 u))|exact Hn].
    - exists (Decimal.D7 u).
      split; [exact (NilEmpty.usu (Decimal.D7 u))|exact Hn].
    - exists (Decimal.D8 u).
      split; [exact (NilEmpty.usu (Decimal.D8 u))|exact Hn].
    - exists (Decimal.D9 u).
      split; [exact (NilEmpty.usu (Decimal.D9 u))|exact Hn]. }
  destruct Hparse as (d & -> & Hd). simpl.
  rewrite Hd, Z2N.id by exact Hz. reflexivity.
Qed.

(** Reading back a zero-padded non-negative number gives the number. *)
Lemma int_of_digits_format_0w (width : nat) (z : Z) :
  0 <= z -> int_of_digits (Py.format_0w width z) = Some z.
Proof.
  intros Hz. unfold Py.format_0w, Py.zfill.
  destruct (z <? 0) eqn:E; [apply Z.ltb_lt in E; lia|].
  pose proof (int_of_digits_digits z Hz) as Hdigits.
  unfold int_of_digits in *.
  rewrite uint_of_string_zeros.
  destruct (NilEmpty.uint_of_string (Py.digits z)); [|discriminate].
  simpl in *. rewrite of_uint_leading_zeros. exact Hdigits.
Qed.

Lemma append_cancel_l (a b c : string) :
  (a ++ b)%string = (a ++ c)%string -> b = c.
Proof.
  induction a as [|x a IH]; simpl; [auto|].
  intros [= H]. auto.
Qed.

Lemma transaction_no_shape
  (interval : ReportingPeriod.t -> ReportingPeriod.Interval)
  (transaction_no_prefix : Transaction.TransactionType -> string)
  (self : Transaction.t) (session : Transaction.AccountingSession)
  (ty : Transaction.TransactionType) (p : ReportingPeriod.t) :
  Transaction._transaction_no interval transaction_no_prefix self session ty p
  = (transaction_no_prefix ty
     ++ Py.format_0w 2 (ReportingPeriod.period_count p)
     ++ "/"
     ++ Py.format_0w 4
          (count_stored interval self ty p session
           + session_index_or_1 self)%Z)%string.
Proof. reflexivity. Qed.

Lemma count_stored_nonneg
  (interval : ReportingPeriod.t -> ReportingPeriod.Interval)
  (self : Transaction.t) (ty : Transaction.TransactionType)
  (p : ReportingPeriod.t) (session : Transaction.AccountingSession) :
  0 <= count_stored interval self ty p session.
Proof. unfold count_stored. lia. Qed.

(** X10: the text of a transaction number determines its sequence: two
    numbers generated for the same transaction type and period (with
    non-negative session indices) are the same string only when the count of
    stored rows plus the session index is the same. *)
Theorem transaction_no_determines_sequence
  (interval : ReportingPeriod.t -> ReportingPeriod.Interval)
  (transaction_no_prefix : Transaction.TransactionType -> string)
  (self1 self2 : Transaction.t)
  (session1 session2 : Transaction.AccountingSession)
  (ty : Transaction.TransactionType) (p : ReportingPeriod.t) :
  0 <= session_index_or_1 self1 ->
  0 <= session_index_or_1 self2 ->
  Transaction._transaction_no interval transaction_no_prefix self1 session1
    ty p
  = Transaction._transaction_no interval transaction_no_prefix self2 session2
      ty p ->
  count_stored interval self1 ty p session1 + session_index_or_1 self1
  = count_stored interval self2 ty p session2 + session_index_or_1 self2.
Proof.
  intros H1 H2. rewrite !transaction_no_shape. intros Heq.
  apply append_cancel_l in Heq. apply append_cancel_l in Heq.
  apply (append_cancel_l "/") in Heq.
  apply (f_equal int_of_digits) in Heq.
  pose proof (count_stored_nonneg interval self1 ty p session1).
  pose proof (count_stored_nonneg interval self2 ty p session2).
  rewrite !int_of_digits_format_0w in Heq by lia.
  now injection Heq.
Qed.

Lemma transaction_no_determines_sequence_witness :
  0 <= session_index_or_1 (Sample.journal_entry 100)
  /\ Transaction._transaction_no Sample.interval Sample.transaction_no_prefix
       (Sample.journal_entry 100) Sample.session_next_year
       Transaction.JOURNAL_ENTRY (Sample.period_2024 ReportingPeriod.ADJUSTING)
     = Transaction._transaction_no Sample.interval
         Sample.transaction_no_prefix (Sample.journal_entry 200)
         Sample.session_next_year Transaction.JOURNAL_ENTRY
         (Sample.period_2024 ReportingPeriod.ADJUSTING)
  /\ count_stored Sample.interval (Sample.journal_entry 100)
       Transaction.JOURNAL_ENTRY (Sample.period_2024 ReportingPeriod.ADJUSTING)
       Sample.session_next_year
     + session_index_or_1 (Sample.journal_entry 100)
     = count_stored Sample.interval (Sample.journal_entry 200)
         Transaction.JOURNAL_ENTRY
         (Sample.period_2024 ReportingPeriod.ADJUSTING)
         Sample.session_next_year
       + session_index_or_1 (Sample.journal_entry 200).
Proof.
  assert (H : 0 <= session_index_or_1 (Sample.journal_entry 100))
    by (vm_compute; discriminate).
  split; [exact H|]. split; [reflexivity|].
  exact (transaction_no_determines_sequence Sample.interval
           Sample.transaction_no_prefix (Sample.journal_entry 100)
           (Sample.journal_entry 200) Sample.session_next_year
           Sample.session_next_year Transaction.JOURNAL_ENTRY
           (Sample.period_2024 ReportingPeriod.ADJUSTING) H H eq_refl).
Defined.

Lemma count_stored_insert
  (interval : ReportingPeriod.t -> ReportingPeriod.Interval)
  (self : Transaction.t) (ty : Transaction.TransactionType)
  (p : ReportingPeriod.t) (session : Transaction.AccountingSession)
  (before after : list Transaction.t) (row : Transaction.t) :
  Transaction.transactions session = before ++ after ->
  count_stored interval self ty p
    (set_transactions session (before ++ row :: after))
  = count_stored interval self ty p session
    + (if counted interval self ty p row then 1 else 0).
Proof.
  intros Hrows. unfold count_stored, set_transactions. simpl.
  rewrite Hrows, !filter_app, !length_app. simpl.
  destruct (counted interval self ty p row); simpl; lia.
Qed.

(** X11: storing one more Transaction row, wherever it lands in the table,
    moves the next number exactly as one more step of [session_index] does
    when the row has the same type and entity and is dated after the start
    of the period, and does not move it otherwise. *)
Theorem transaction_no_counts_row
  (interval : ReportingPeriod.t -> ReportingPeriod.Interval)
  (transaction_no_prefix : Transaction.TransactionType -> string)
  (self : Transaction.t) (session : Transaction.AccountingSession)
  (ty : Transaction.TransactionType) (p : ReportingPeriod.t)
  (before after : list Transaction.t) (row : Transaction.t) :
  Transaction.transactions session = before ++ after ->
  (counted interval self ty p row = true ->
   Transaction._transaction_no interval transaction_no_prefix self
     (set_transactions session (before ++ row :: after)) ty p
   = Transaction._transaction_no interval transaction_no_prefix
       (set_session_index self (Some (session_index_or_1 self + 1)))
       session ty p)
  /\ (counted interval self ty p row = false ->
      Transaction._transaction_no interval transaction_no_prefix self
        (set_transactions session (before ++ row :: after)) ty p
      = Transaction._transaction_no interval transaction_no_prefix self
          session ty p).
Proof.
  intros Hrows. rewrite !transaction_no_shape.
  rewrite (count_stored_insert interval self ty p session before after row
             Hrows).
  split; intros ->.
  - change (count_stored interval
              (set_session_index self (Some (session_index_or_1 self + 1)))
              ty p session)
      with (count_stored interval self ty p session).
    change (session_index_or_1
              (set_session_index self (Some (session_index_or_1 self + 1))))
      with (session_index_or_1 self + 1).
    do 4 f_equal. lia.
  - rewrite Z.add_0_r. reflexivity.
Qed.

Lemma transaction_no_counts_row_witness :
  Transaction.transactions Sample.session_next_year
  = [] ++ [Sample.journal_entry 1500]
  /\ counted Sample.interval (Sample.journal_entry 100)
       Transaction.JOURNAL_ENTRY (Sample.period_2024 ReportingPeriod.ADJUSTING)
       (Sample.cash_sale_on 500) = false
  /\ Transaction._transaction_no Sample.interval Sample.transaction_no_prefix
       (Sample.journal_entry 100)
       (set_transactions Sample.session_next_year
          ([] ++ Sample.cash_sale_on 500 :: [Sample.journal_entry 1500]))
       Transaction.JOURNAL_ENTRY (Sample.period_2024 ReportingPeriod.ADJUSTING)
     = Transaction._transaction_no Sample.interval
         Sample.transaction_no_prefix (Sample.journal_entry 100)
         Sample.session_next_year Transaction.JOURNAL_ENTRY
         (Sample.period_2024 ReportingPeriod.ADJUSTING).
Proof.
  split; [reflexivity|]. split; [reflexivity|].
  apply (proj2
           (transaction_no_counts_row Sample.interval
              Sample.transaction_no_prefix (Sample.journal_entry 100)
              Sample.session_next_year Transaction.JOURNAL_ENTRY
              (Sample.period_2024 ReportingPeriod.ADJUSTING) []
              [Sample.journal_entry 1500] (Sample.cash_sale_on 500)
              eq_refl)).
  reflexivity.
Defined.

(* ------------------------------------------------------------------ *)
(** ** More on the line-item hook and on posting                       *)
(* ------------------------------------------------------------------ *)

(** X12: on an unposted Transaction the hook does to a line item that is
    being removed exactly what it does to one that is being added, the flip
    of its [credited] flag included; [key] and [is_remove] only reach the
    message of the PostedTransactionError. *)
Theorem validate_line_items_remove_like_add
  (_validate_subclass_line_items :
     option (Transaction.t -> LineItem.t -> option exception))
  (self : Transaction.t) (key1 key2 : string) (line_item : LineItem.t) :
  Transaction.is_posted self = false ->
  Transaction.validate_line_items _validate_subclass_line_items self key1
    true line_item
  = Transaction.validate_line_items _validate_subclass_line_items self key2
      false line_item.
Proof.
  intros Hposted. run_method. rewrite Hposted.
  destruct _validate_subclass_line_items as [hook|]; reflexivity.
Qed.

Lemma validate_line_items_remove_like_add_witness :
  Transaction.is_posted Sample.cash_sale_with_line = false
  /\ Transaction.validate_line_items None Sample.cash_sale_with_line
       "line_items" true Sample.sale_line
     = Return (LineItem.set_credited Sample.sale_line true)
         (LineItem.set_credited Sample.sale_line true)
  /\ Transaction.validate_line_items None Sample.cash_sale_with_line
       "line_items" true Sample.sale_line
     = Transaction.validate_line_items None Sample.cash_sale_with_line
         "line_items" false Sample.sale_line.
Proof.
  split; [reflexivity|]. split; [reflexivity|].
  exact (validate_line_items_remove_like_add None
           Sample.cash_sale_with_line "line_items" "line_items"
           Sample.sale_line eq_refl).
Defined.

(** X13: when the hook returns, the object it returns is the line item it
    was given with at most the [credited] flag changed; the line item has an
    id and the Transaction is unposted; for a compound Transaction the line
    item is untouched, for any other its flag is the negation of the
    Transaction's. *)
Theorem validate_line_items_return
  (_validate_subclass_line_items :
     option (Transaction.t -> LineItem.t -> option exception))
  (self : Transaction.t) (key : string) (is_remove : bool)
  (line_item line_item' returned : LineItem.t) :
  Transaction.validate_line_items _validate_subclass_line_items self key
    is_remove line_item = Return line_item' returned ->
  returned = line_item'
  /\ line_item'
     = LineItem.set_credited line_item (LineItem.credited line_item')
  /\ LineItem.id line_item <> None
  /\ Transaction.is_posted self = false
  /\ (Transaction.compound self = true -> line_item' = line_item)
  /\ (Transaction.compound self = false ->
      LineItem.credited line_item' = negb (Transaction.credited self)).
Proof.
  run_method.
  destruct _validate_subclass_line_items as [hook|];
    [destruct (hook self line_item); [discriminate|]|];
    (destruct (Transaction.is_posted self); [discriminate|];
     destruct (LineItem.id line_item) as [i|]; [|discriminate];
     destruct (Transaction.compound self) eqn:Hcompound; simpl;
     [|destruct (Bool.eqb _ _) eqn:E]; intros [= <- <-];
     repeat split; intros; try discriminate; try reflexivity;
     try (destruct line_item; reflexivity);
     apply eqb_false_iff in E;
     destruct (LineItem.credited line_item), (Transaction.credited self);
     simpl; congruence).
Qed.

Lemma validate_line_items_return_witness :
  Transaction.validate_line_items None Sample.cash_sale "line_items" false
    Sample.sale_line
  = Return (LineItem.set_credited Sample.sale_line true)
      (LineItem.set_credited Sample.sale_line true)
  /\ LineItem.set_credited Sample.sale_line true
     = LineItem.set_credited Sample.sale_line
         (LineItem.credited (LineItem.set_credited Sample.sale_line true)).
Proof.
  split; [reflexivity|].
  exact (proj1 (proj2
                  (validate_line_items_return None Sample.cash_sale
                     "line_items" false Sample.sale_line _ _ eq_refl))).
Defined.

(** X14: [validate], [validate_delete] and attaching a line item never
    change the [ledgers] of a Transaction, whatever their outcome: none of
    them can turn an unposted Transaction into a posted one. *)
Theorem only_post_posts
  (_validate_subclass_line_items :
     option (Transaction.t -> LineItem.t -> option exception))
  (get_period : Transaction.AccountingSession -> option Py.datetime
                -> exception + ReportingPeriod.t)
  (interval : ReportingPeriod.t -> ReportingPeriod.Interval)
  (transaction_no_prefix : Transaction.TransactionType -> string)
  (session : Transaction.AccountingSession) (self : Transaction.t)
  (line_item : LineItem.t) :
  Transaction.ledgers
    (state_of
       (Transaction.validate get_period interval transaction_no_prefix
          session self)) = Transaction.ledgers self
  /\ Transaction.ledgers (state_of (Transaction.validate_delete session self))
     = Transaction.ledgers self
  /\ Transaction.ledgers
       (fst (state_of
               (Transaction.line_items_add _validate_subclass_line_items
                  (self, line_item)))) = Transaction.ledgers self.
Proof.
  split; [apply validate_keeps_ledgers|]. split.
  - run_method. destruct (Transaction.is_posted self); reflexivity.
  - apply line_items_add_keeps_ledgers.
Qed.

Section PostedFacts.

Variable _validate_subclass_line_items :
  option (Transaction.t -> LineItem.t -> option exception).
Variable get_period :
  Transaction.AccountingSession -> option Py.datetime
  -> exception + ReportingPeriod.t.
Variable interval : ReportingPeriod.t -> ReportingPeriod.Interval.
Variable transaction_no_prefix : Transaction.TransactionType -> string.

Lemma step_keeps_posted_with_lines (self self' : Transaction.t) :
  step _validate_subclass_line_items get_period interval
    transaction_no_prefix self self' ->
  (Transaction.ledgers self <> [] -> Transaction.line_items self <> []) ->
  Transaction.ledgers self' <> [] -> Transaction.line_items self' <> [].
Proof.
  intros Hstep Hinv.
  destruct Hstep as [session self|session self|self line_item|session self].
  - destruct (validate_writes get_period interval transaction_no_prefix
                session self) as (c & n & ->). exact Hinv.
  - run_method. destruct (Transaction.is_posted self); exact Hinv.
  - rewrite line_items_add_keeps_ledgers.
    unfold Transaction.line_items_add.
    destruct (Transaction.validate_line_items _ _ _ _ _); simpl.
    + intros _ H. apply app_eq_nil in H as [_ H]. discriminate.
    + exact Hinv.
  - unfold Transaction.post.
    destruct (Transaction.line_items self) eqn:Hitems; simpl.
    + rewrite Hitems. exact Hinv.
    + rewrite Hitems. intros _. discriminate.
Qed.

Lemma lifecycle_posted_with_lines (self : Transaction.t) :
  lifecycle _validate_subclass_line_items get_period interval
    transaction_no_prefix self ->
  Transaction.ledgers self <> [] -> Transaction.line_items self <> [].
Proof.
  induction 1 as [self Hnew _|self self' _ IH Hstep].
  - intros H. now elim H.
  - exact (step_keeps_posted_with_lines self self' Hstep IH).
Qed.

End PostedFacts.

(** X15: every posted Transaction the lifecycle produces has at least one
    line item: [post] refuses a Transaction without line items, and nothing
    else creates Ledger rows. *)
Theorem posted_has_line_items
  (_validate_subclass_line_items :
     option (Transaction.t -> LineItem.t -> option exception))
  (get_period : Transaction.AccountingSession -> option Py.datetime
                -> exception + ReportingPeriod.t)
  (interval : ReportingPeriod.t -> ReportingPeriod.Interval)
  (transaction_no_prefix : Transaction.TransactionType -> string)
  (self : Transaction.t) :
  lifecycle _validate_subclass_line_items get_period interval
    transaction_no_prefix self ->
  Transaction.is_posted self = true ->
  Transaction.line_items self <> [].
Proof.
  intros Hlife Hposted%is_posted_nonempty.
  exact (lifecycle_posted_with_lines _ _ _ _ self Hlife Hposted).
Qed.

Lemma posted_has_line_items_witness :
  lifecycle None (Sample.get_period ReportingPeriod.OPEN) Sample.interval
    Sample.transaction_no_prefix Sample.posted_cash_sale
  /\ Transaction.is_posted Sample.posted_cash_sale = true
  /\ Transaction.line_items Sample.posted_cash_sale <> [].
Proof.
  assert (Hlife :
            lifecycle None (Sample.get_period ReportingPeriod.OPEN)
              Sample.interval Sample.transaction_no_prefix
              Sample.posted_cash_sale).
  { apply evolved with (self := Sample.cash_sale_with_line).
    - apply evolved with (self := Sample.cash_sale).
      + apply created; reflexivity.
      + exact (step_line_items_add None _ _ _ Sample.cash_sale
                 Sample.sale_line).
    - exact (step_post None _ _ _ Sample.session
               Sample.cash_sale_with_line). }
  split; [exact Hlife|]. split; [reflexivity|].
  exact (posted_has_line_items None _ _ _ Sample.posted_cash_sale Hlife
           eq_refl).
Defined.

(* ------------------------------------------------------------------ *)
(** ** The [tax] property and the amount                               *)
(* ------------------------------------------------------------------ *)













(** The tax of the cash sale of the fixture: one entry, 20 at 10%. *)
Example cash_sale_tax :
  PyDict.keys (TaxSummary.taxes (Transaction.tax Sample.cash_sale_with_line))
  = ["OTPT"%string]
  /\ map TaxSummary.rate
       (PyDict.values
          (TaxSummary.taxes (Transaction.tax Sample.cash_sale_with_line)))
     = ["10.00%"%string]
  /\ (TaxSummary.total (Transaction.tax Sample.cash_sale_with_line) == 20)%Q.
Proof. repeat split. Qed.

Example str_round2_ties_to_even :
  PyRound.str_round2 (12345 # 1000) = "12.34"%string
  /\ PyRound.str_round2 (12355 # 1000) = "12.36"%string
  /\ PyRound.str_round2 (-(5 # 1000)) = "-0.00"%string
  /\ PyRound.str_round2 (7 # 2) = "3.50"%string.
Proof. repeat split. Qed.



Lemma line_item_share_nonneg (l : LineItem.t) :
  (0 <= LineItem.amount l)%Q -> (0 <= LineItem.quantity l)%Q ->
  (0 <= LineItem.tax_rate l)%Q ->
  (0 <= line_item_share l)%Q.
Proof.
  intros Ha Hq Hr. unfold line_item_share.
  assert (Hnet : (0 <= LineItem.quantity l * LineItem.amount l)%Q)
    by (apply Qmult_le_0_compat; assumption).
  destruct (_ && _); [|exact Hnet].
  rewrite <- (Qplus_0_r 0).
  apply Qplus_le_compat; [exact Hnet|].
  unfold Qdiv. repeat apply Qmult_le_0_compat; try assumption.
  discriminate.
Qed.

(** X19: the amount of a Transaction is never negative when the amounts,
    quantities and tax rates of its line items are not. *)
Theorem amount_nonnegative (self : Transaction.t) :
  Forall
    (fun l =>
       (0 <= LineItem.amount l)%Q /\ (0 <= LineItem.quantity l)%Q
       /\ (0 <= LineItem.tax_rate l)%Q)
    (Transaction.line_items self) ->
  (0 <= Transaction.amount self)%Q.
Proof.
  intros Hitems. rewrite amount_by_shares.
  induction Hitems as [|l items (Ha & Hq & Hr) _ IH]; simpl.
  - apply Qle_refl.
  - destruct (Bool.eqb _ _); [exact IH|].
    rewrite <- (Qplus_0_r 0).
    apply Qplus_le_compat; [|exact IH].
    apply line_item_share_nonneg; assumption.
Qed.

Lemma amount_nonnegative_witness :
  Forall
    (fun l =>
       (0 <= LineItem.amount l)%Q /\ (0 <= LineItem.quantity l)%Q
       /\ (0 <= LineItem.tax_rate l)%Q)
    (Transaction.line_items Sample.cash_sale_with_line)
  /\ (0 <= Transaction.amount Sample.cash_sale_with_line)%Q.
Proof.
  assert (H : Forall
                (fun l =>
                   (0 <= LineItem.amount l)%Q /\ (0 <= LineItem.quantity l)%Q
                   /\ (0 <= LineItem.tax_rate l)%Q)
                (Transaction.line_items Sample.cash_sale_with_line)).
  { constructor; [|constructor].
    repeat split; vm_compute; discriminate. }
  split; [exact H|].
  exact (amount_nonnegative Sample.cash_sale_with_line H).
Defined.

(* ------------------------------------------------------------------ *)
(** ** The sections of a financial statement                           *)
(* ------------------------------------------------------------------ *)

Lemma dict_get_set {V : Type} (d : PyDict.t V) (key key' : string) (v : V) :
  PyDict.get (PyDict.set d key v) key'
  = if String.eqb key key' then Some v else PyDict.get d key'.
Proof.
  induction d as [|[k v'] d IH]; simpl.
  - reflexivity.
  - destruct (String.eqb k key) eqn:Ek; simpl.
    + apply String.eqb_eq in Ek. subst k.
      destruct (String.eqb key key'); reflexivity.
    + rewrite IH.
      destruct (String.eqb k key') eqn:Ek', (String.eqb key key') eqn:Ekey;
        try reflexivity.
      apply String.eqb_eq in Ek', Ekey. subst.
      rewrite String.eqb_refl in Ek. discriminate.
Qed.

Lemma dict_get_set_same {V : Type} (d : PyDict.t V) (key : string) (v : V) :
  PyDict.get (PyDict.set d key v) key = Some v.
Proof. rewrite dict_get_set, String.eqb_refl. reflexivity. Qed.

Lemma dict_get_set_other {V : Type} (d : PyDict.t V) (key key' : string)
  (v : V) :
  key <> key' -> PyDict.get (PyDict.set d key v) key' = PyDict.get d key'.
Proof.
  intros Hne. rewrite dict_get_set.
  destruct (String.eqb key key') eqn:E; [|reflexivity].
  apply String.eqb_eq in E. contradiction.
Qed.

Lemma dict_of_get {V : Type} (names : list string) (v : V) (key : string) :
  PyDict.get (FinancialStatement.dict_of names v) key
  = if in_dec string_dec key names then Some v else None.
Proof.
  unfold FinancialStatement.dict_of.
  assert (Hgen : forall d,
             PyDict.get (fold_left (fun d k => PyDict.set d k v) names d) key
             = if in_dec string_dec key names then Some v
               else PyDict.get d key).
  { induction names as [|n names IH]; intros d; simpl.
    - reflexivity.
    - rewrite IH.
      destruct (in_dec string_dec key names) as [Hin|Hout];
        destruct (string_dec n key) as [->|Hne]; try reflexivity.
      + apply dict_get_set_same.
      + apply dict_get_set_other. exact Hne. }
  rewrite Hgen. destruct (in_dec string_dec key names); reflexivity.
Qed.

(** Without a repeated value a [StrEnum] has no alias: every item is a
    member. *)
Lemma enum_members_all (seen : list string) (items : list (string * string)) :
  NoDup (map snd items) ->
  (forall v, In v (map snd items) -> ~ In v seen) ->
  FinancialStatement.enum_members seen items = items.
Proof.
  revert seen. induction items as [|[name value] items IH];
    intros seen Hnodup Hfresh; simpl.
  - reflexivity.
  - inversion Hnodup as [|? ? Hvalue Hrest]; subst.
    destruct (existsb (String.eqb value) seen) eqn:E.
    + apply existsb_exists in E as (x & Hin & Hx).
      apply String.eqb_eq in Hx. subst x.
      elim (Hfresh value); [left; reflexivity|exact Hin].
    + f_equal. apply IH; [exact Hrest|].
      intros v Hv [<-|Hin]; [contradiction|].
      exact (Hfresh v (or_intror Hv) Hin).
Qed.

Lemma debit_credit_parts (closing : Q) :
  (debit_part closing + credit_part closing == closing)%Q
  /\ (0 <= debit_part closing)%Q /\ (credit_part closing <= 0)%Q.
Proof.
  unfold debit_part, credit_part.
  destruct (Qle_bool 0 closing) eqn:E.
  - apply Qle_bool_iff in E. repeat split; [ring|exact E|apply Qle_refl].
  - repeat split; [ring|apply Qle_refl|].
    destruct (Qlt_le_dec closing 0) as [Hlt|Hle].
    + apply Qlt_le_weak. exact Hlt.
    + apply Qle_bool_iff in Hle. congruence.
Qed.

Section StatementFacts.

Variable Categories : Type.
Variable section_balances :
  Transaction.AccountingSession -> list string -> option Py.datetime
  -> option Py.datetime -> bool
  -> exception + FinancialStatement.SectionBalances Categories.
Variable AccountType_value : string -> option string.
Variables start_date end_date : option Py.datetime.
Variable full_balance : bool.

(** The closing balances [Account.section_balances] finds, one account type
    at a time. *)
Variable found : string -> FinancialStatement.SectionBalances Categories.

Let closing_of (account_type : string) : Q :=
  FinancialStatement.closing Categories (found account_type).

(** One account type of one section, on a statement that is ready. *)
Lemma visit_ready (names : list string)
  (self : FinancialStatement.t Categories) (section account_type : string)
  (label : string) :
  ready names self ->
  In section names ->
  ~ In "debit"%string names ->
  ~ In "credit"%string names ->
  section_balances (FinancialStatement.session Categories self)
    [account_type] start_date end_date full_balance
  = inr (found account_type) ->
  AccountType_value account_type = Some label ->
  exists self',
    FinancialStatement.visit Categories section_balances AccountType_value
      start_date end_date full_balance section account_type self
    = FinancialStatement.Done Categories self'
    /\ ready names self'
    /\ FinancialStatement.session Categories self'
       = FinancialStatement.session Categories self
    /\ (total_at self' section
        == total_at self section + closing_of account_type)%Q
    /\ (forall other, other <> section ->
                      total_at self' other = total_at self other)
    /\ (side_at self' "debit"
        == side_at self "debit" + debit_part (closing_of account_type))%Q
    /\ (side_at self' "credit"
        == side_at self "credit" + credit_part (closing_of account_type))%Q.
Proof.
  intros (Hnames & [debit Hdebit] & [credit Hcredit]) Hin Hnd Hnc Hfound
    Hlabel.
  destruct (Hnames section Hin) as ([acc Hacc] & [bd Hbd] & [t Ht]).
  assert (Hsd : section <> "debit"%string) by (intros ->; contradiction).
  assert (Hsc : section <> "credit"%string) by (intros ->; contradiction).
  unfold FinancialStatement.visit. rewrite Hfound, Hlabel.
  subst closing_of. cbv beta.
  set (c := FinancialStatement.closing Categories (found account_type)).
  destruct (Qeq_bool c 0) eqn:Ezero; simpl.
  - apply Qeq_bool_iff in Ezero. exists self.
    split; [reflexivity|].
    split; [exact (conj Hnames (conj (ex_intro _ debit Hdebit)
                                     (ex_intro _ credit Hcredit)))|].
    split; [reflexivity|].
    split; [rewrite Ezero; ring|]. split; [reflexivity|].
    unfold debit_part, credit_part.
    destruct (Qle_bool 0 c); split; try rewrite Ezero; ring.
  - rewrite Hacc. simpl. rewrite Hbd. simpl. rewrite Ht. simpl.
    assert (Hready :
              forall side amount,
                (side = "debit"%string \/ side = "credit"%string) ->
                ready names
                  (FinancialStatement.set_balances Categories
                     (FinancialStatement.set_totals Categories
                        (FinancialStatement.set_balances Categories
                           (FinancialStatement.set_accounts Categories self
                              (PyDict.set
                                 (FinancialStatement.accounts Categories self)
                                 section
                                 (PyDict.set acc label
                                    (FinancialStatement.categories Categories
                                       (found account_type)))))
                           (PyDict.set
                              (FinancialStatement.balances Categories self)
                              section
                              (FinancialStatement.Breakdown
                                 (PyDict.set bd label c))))
                        (PyDict.set
                           (FinancialStatement.totals Categories self)
                           section (t + c)%Q))
                     (PyDict.set
                        (PyDict.set
                           (FinancialStatement.balances Categories self)
                           section
                           (FinancialStatement.Breakdown
                              (PyDict.set bd label c)))
                        side (FinancialStatement.Amount amount)))).
    { intros side amount Hside. unfold ready. simpl. split; [|split].
      - intros s Hs.
        assert (Hss : side <> s)
          by (intros <-; destruct Hside as [->| ->]; contradiction).
        destruct (Hnames s Hs) as ([a' Ha'] & [b' Hb'] & [t' Ht']).
        rewrite !dict_get_set.
        destruct (String.eqb side s) eqn:E1.
        { apply String.eqb_eq in E1. contradiction. }
        destruct (String.eqb section s);
          repeat split; eexists; try reflexivity; eassumption.
      - rewrite !dict_get_set.
        destruct (String.eqb side "debit"); [eexists; reflexivity|].
        destruct (String.eqb section "debit") eqn:E2.
        { apply String.eqb_eq in E2. contradiction. }
        exists debit. exact Hdebit.
      - rewrite !dict_get_set.
        destruct (String.eqb side "credit"); [eexists; reflexivity|].
        destruct (String.eqb section "credit") eqn:E2.
        { apply String.eqb_eq in E2. contradiction. }
        exists credit. exact Hcredit. }
    unfold debit_part, credit_part.
    destruct (Qle_bool 0 c) eqn:Eside.
    + rewrite (dict_get_set_other _ _ _ _ Hsd), Hdebit.
      eexists. split; [reflexivity|].
      split; [apply Hready; left; reflexivity|].
      split; [reflexivity|].
      unfold total_at, side_at. simpl.
      rewrite dict_get_set_same, Ht.
      split; [reflexivity|]. split.
      * intros other Hother.
        rewrite (dict_get_set_other _ _ _ _ (not_eq_sym Hother)).
        reflexivity.
      * rewrite dict_get_set_same, Hdebit.
        rewrite (dict_get_set_other _ "debit" "credit") by discriminate.
        rewrite (dict_get_set_other _ _ _ _ Hsc), Hcredit.
        split; [reflexivity|ring].
    + rewrite (dict_get_set_other _ _ _ _ Hsc), Hcredit.
      eexists. split; [reflexivity|].
      split; [apply Hready; right; reflexivity|].
      split; [reflexivity|].
      unfold total_at, side_at. simpl.
      rewrite dict_get_set_same, Ht.
      split; [reflexivity|]. split.
      * intros other Hother.
        rewrite (dict_get_set_other _ _ _ _ (not_eq_sym Hother)).
        reflexivity.
      * rewrite dict_get_set_same, Hcredit.
        rewrite (dict_get_set_other _ "credit" "debit") by discriminate.
        rewrite (dict_get_set_other _ _ _ _ Hsd), Hdebit.
        split; [ring|reflexivity].
Qed.

Lemma visit_section_ready (names : list string) (section : string)
  (types : list string) (self : FinancialStatement.t Categories) :
  ready names self ->
  In section names ->
  ~ In "debit"%string names ->
  ~ In "credit"%string names ->
  (forall account_type,
      In account_type types ->
      section_balances (FinancialStatement.session Categories self)
        [account_type] start_date end_date full_balance
      = inr (found account_type)
      /\ exists label, AccountType_value account_type = Some label) ->
  exists self',
    FinancialStatement.visit_section Categories section_balances
      AccountType_value start_date end_date full_balance section types self
    = FinancialStatement.Done Categories self'
    /\ ready names self'
    /\ FinancialStatement.session Categories self'
       = FinancialStatement.session Categories self
    /\ (total_at self' section
        == total_at self section + Py.sum (map closing_of types))%Q
    /\ (forall other, other <> section ->
                      total_at self' other = total_at self other)
    /\ (side_at self' "debit"
        == side_at self "debit"
           + Py.sum (map (fun a => debit_part (closing_of a)) types))%Q
    /\ (side_at self' "credit"
        == side_at self "credit"
           + Py.sum (map (fun a => credit_part (closing_of a)) types))%Q.
Proof.
  intros Hready Hin Hnd Hnc. revert self Hready.
  induction types as [|a types IH]; intros self Hready Hfound; simpl.
  - exists self. split; [reflexivity|]. split; [exact Hready|].
    split; [reflexivity|].
    change (Py.sum []) with 0%Q.
    split; [ring|]. split; [reflexivity|]. split; ring.
  - destruct (Hfound a (or_introl eq_refl)) as (Ha & label & Hlabel).
    destruct (visit_ready names self section a label Hready Hin Hnd Hnc Ha
                Hlabel)
      as (self1 & Hvisit & Hready1 & Hsession1 & Htotal1 & Hother1 & Hd1
          & Hc1).
    rewrite Hvisit.
    destruct (IH self1 Hready1) as (self' & Hrest & Hready' & Hsession'
                                    & Htotal' & Hother' & Hd' & Hc').
    { intros a' Ha'. rewrite Hsession1. apply Hfound. right. exact Ha'. }
    exists self'. split; [exact Hrest|]. split; [exact Hready'|].
    split; [congruence|].
    rewrite !sum_cons.
    split; [rewrite Htotal', Htotal1; ring|].
    split; [intros other Hne; rewrite (Hother' other Hne); auto|].
    split; [rewrite Hd', Hd1; ring|rewrite Hc', Hc1; ring].
Qed.

Lemma visit_sections_ready (names : list string)
  (items : list (string * FinancialStatement.SectionConfig))
  (self : FinancialStatement.t Categories) :
  ready names self ->
  NoDup (map fst items) ->
  (forall section, In section (map fst items) -> In section names) ->
  ~ In "debit"%string names ->
  ~ In "credit"%string names ->
  (forall account_type,
      In account_type
        (flat_map (fun item => FinancialStatement.account_types (snd item))
           items) ->
      section_balances (FinancialStatement.session Categories self)
        [account_type] start_date end_date full_balance
      = inr (found account_type)
      /\ exists label, AccountType_value account_type = Some label) ->
  exists self',
    FinancialStatement.visit_sections Categories section_balances
      AccountType_value start_date end_date full_balance items self
    = FinancialStatement.Done Categories self'
    /\ ready names self'
    /\ (forall section content,
           In (section, content) items ->
           (total_at self' section
            == total_at self section
               + Py.sum
                   (map closing_of (FinancialStatement.account_types content)))%Q)
    /\ (forall other, ~ In other (map fst items) ->
                      total_at self' other = total_at self other)
    /\ (side_at self' "debit"
        == side_at self "debit"
           + Py.sum
               (map (fun a => debit_part (closing_of a))
                  (flat_map
                     (fun item => FinancialStatement.account_types (snd item))
                     items)))%Q
    /\ (side_at self' "credit"
        == side_at self "credit"
           + Py.sum
               (map (fun a => credit_part (closing_of a))
                  (flat_map
                     (fun item => FinancialStatement.account_types (snd item))
                     items)))%Q.
Proof.
  intros Hready Hnodup Hnames Hnd Hnc. revert self Hready.
  induction items as [|[section content] items IH];
    intros self Hready Hfound; simpl.
  - exists self. split; [reflexivity|]. split; [exact Hready|].
    change (Py.sum []) with 0%Q.
    split; [intros ? ? []|]. split; [reflexivity|]. split; ring.
  - inversion Hnodup as [|? ? Hfresh Hrest]; subst.
    destruct (visit_section_ready names section
                (FinancialStatement.account_types content) self Hready
                (Hnames section (or_introl eq_refl)) Hnd Hnc)
      as (self1 & Hvisit & Hready1 & Hsession1 & Htotal1 & Hother1 & Hd1
          & Hc1).
    { intros a Ha. apply Hfound. simpl. apply in_or_app. left. exact Ha. }
    rewrite Hvisit.
    destruct (IH Hrest (fun s Hs => Hnames s (or_intror Hs)) self1 Hready1)
      as (self' & Hloop & Hready' & Htotals' & Hother' & Hd' & Hc').
    { intros a Ha. rewrite Hsession1. apply Hfound. simpl.
      apply in_or_app. right. exact Ha. }
    exists self'. split; [exact Hloop|]. split; [exact Hready'|].
    split; [|split; [|split]].
    + intros section' content' [[= <- <-]|Hin].
      * rewrite (Hother' section Hfresh). exact Htotal1.
      * rewrite (Htotals' section' content' Hin).
        assert (Hne : section' <> section).
        { intros ->. apply Hfresh.
          change section with (fst (section, content')).
          apply in_map. exact Hin. }
        rewrite (Hother1 section' Hne). reflexivity.
    + intros other Hout.
      rewrite (Hother' other (fun H => Hout (or_intror H))).
      apply Hother1. intros ->. apply Hout. left. reflexivity.
    + rewrite Hd', Hd1, map_app, sum_app. ring.
    + rewrite Hc', Hc1, map_app, sum_app. ring.
Qed.

End StatementFacts.

Lemma sum_parts (f : string -> Q) (types : list string) :
  (Py.sum (map (fun a => debit_part (f a)) types)
   + Py.sum (map (fun a => credit_part (f a)) types)
   == Py.sum (map f types))%Q
  /\ (0 <= Py.sum (map (fun a => debit_part (f a)) types))%Q
  /\ (Py.sum (map (fun a => credit_part (f a)) types) <= 0)%Q.
Proof.
  induction types as [|a types (Hsum & Hdebit & Hcredit)]; simpl.
  - change (Py.sum []) with 0%Q.
    split; [ring|split; apply Qle_refl].
  - rewrite !sum_cons.
    destruct (debit_credit_parts (f a)) as (Hparts & Hd & Hc).
    split; [|split].
    + transitivity
        ((debit_part (f a) + credit_part (f a))
         + (Py.sum (map (fun a => debit_part (f a)) types)
            + Py.sum (map (fun a => credit_part (f a)) types)))%Q;
        [ring|].
      rewrite Hparts, Hsum. reflexivity.
    + apply (Qle_trans _ (0 + 0)%Q); [discriminate|].
      apply Qplus_le_compat; assumption.
    + apply (Qle_trans _ (0 + 0)%Q); [|discriminate].
      apply Qplus_le_compat; assumption.
Qed.

(** A statement fresh from [__init__] over a well-formed configuration. *)
Lemma init_ready (Categories : Type)
  (session : Transaction.AccountingSession)
  (config : FinancialStatement.ReportConfig) :
  well_formed config ->
  FinancialStatement.section_names Categories
    (FinancialStatement.__init__ Categories session config)
  = PyDict.keys (FinancialStatement.config_sections config)
  /\ ready (PyDict.keys (FinancialStatement.config_sections config))
       (FinancialStatement.__init__ Categories session config)
  /\ (forall section,
         total_at (FinancialStatement.__init__ Categories session config)
           section = 0%Q)
  /\ side_at (FinancialStatement.__init__ Categories session config) "debit"
     = 0%Q
  /\ side_at (FinancialStatement.__init__ Categories session config) "credit"
     = 0%Q.
Proof.
  intros (Hnames & Hlabels & Hnd & Hnc).
  assert (Hmembers :
            map fst
              (FinancialStatement.enum_members []
                 (map (fun item => (fst item, FinancialStatement.label (snd item)))
                    (FinancialStatement.config_sections config)))
            = PyDict.keys (FinancialStatement.config_sections config)).
  { rewrite enum_members_all.
    - unfold PyDict.keys. rewrite map_map. reflexivity.
    - rewrite map_map. exact Hlabels.
    - intros v _ []. }
  unfold FinancialStatement.__init__, ready, total_at, side_at. simpl.
  rewrite Hmembers.
  split; [reflexivity|]. split; [split; [|split]|].
  - intros section Hin.
    assert (Hsd : "debit"%string <> section) by (intros <-; contradiction).
    assert (Hsc : "credit"%string <> section) by (intros <-; contradiction).
    rewrite (dict_get_set_other _ _ _ _ Hsc), (dict_get_set_other _ _ _ _ Hsd).
    rewrite !dict_of_get.
    destruct (in_dec string_dec section _) as [_|Hout]; [|contradiction].
    repeat split; eexists; reflexivity.
  - exists 0%Q. rewrite dict_get_set_other by discriminate.
    apply dict_get_set_same.
  - exists 0%Q. apply dict_get_set_same.
  - split; [|split].
    + intros section. rewrite dict_of_get.
      destruct (in_dec string_dec section _); reflexivity.
    + rewrite dict_get_set_other by discriminate.
      rewrite dict_get_set_same. reflexivity.
    + rewrite dict_get_set_same. reflexivity.
Qed.

(** [_get_sections] on a statement fresh from [__init__]. *)
Lemma get_sections_after_init (Categories : Type)
  (section_balances :
     Transaction.AccountingSession -> list string -> option Py.datetime
     -> option Py.datetime -> bool
     -> exception + FinancialStatement.SectionBalances Categories)
  (AccountType_value : string -> option string)
  (start_date end_date : option Py.datetime) (full_balance : bool)
  (session : Transaction.AccountingSession)
  (config : FinancialStatement.ReportConfig)
  (found : string -> FinancialStatement.SectionBalances Categories) :
  well_formed config ->
  (forall account_type,
      In account_type (all_account_types config) ->
      section_balances session [account_type] start_date end_date full_balance
      = inr (found account_type)
      /\ exists label, AccountType_value account_type = Some label) ->
  exists self',
    FinancialStatement._get_sections Categories section_balances
      AccountType_value config start_date end_date full_balance
      (FinancialStatement.__init__ Categories session config)
    = FinancialStatement.Done Categories self'
    /\ ready (PyDict.keys (FinancialStatement.config_sections config)) self'
    /\ (forall section content,
           In (section, content) (FinancialStatement.config_sections config) ->
           (total_at self' section
            == Py.sum
                 (map (fun a => FinancialStatement.closing Categories (found a))
                    (FinancialStatement.account_types content)))%Q)
    /\ (side_at self' "debit"
        == Py.sum
             (map
                (fun a =>
                   debit_part (FinancialStatement.closing Categories (found a)))
                (all_account_types config)))%Q
    /\ (side_at self' "credit"
        == Py.sum
             (map
                (fun a =>
                   credit_part
                     (FinancialStatement.closing Categories (found a)))
                (all_account_types config)))%Q.
Proof.
  intros Hconfig Hfound.
  destruct (init_ready Categories session config Hconfig)
    as (_ & Hready & Htotal0 & Hdebit0 & Hcredit0).
  destruct Hconfig as (Hnames & _ & Hnd & Hnc).
  destruct (visit_sections_ready Categories section_balances
              AccountType_value start_date end_date full_balance found
              (PyDict.keys (FinancialStatement.config_sections config))
              (FinancialStatement.config_sections config)
              (FinancialStatement.__init__ Categories session config)
              Hready Hnames (fun s Hs => Hs) Hnd Hnc Hfound)
    as (self' & Hrun & Hready' & Htotals & _ & Hdebit & Hcredit).
  exists self'. split; [exact Hrun|]. split; [exact Hready'|].
  split; [|split].
  - intros section content Hin.
    rewrite (Htotals section content Hin), Htotal0. ring.
  - rewrite Hdebit, Hdebit0. unfold all_account_types. ring.
  - rewrite Hcredit, Hcredit0. unfold all_account_types. ring.
Qed.

(** X20: on a statement fresh from [__init__] over a configuration with
    distinct section names and labels, none of them ["debit"] or
    ["credit"], and with account types that [Account.section_balances] and
    [Account.AccountType] resolve, [_get_sections] raises nothing, and the
    total it leaves for each section is the sum of the closing balances of
    the account types of that section. *)
Theorem get_sections_totals (Categories : Type)
  (section_balances :
     Transaction.AccountingSession -> list string -> option Py.datetime
     -> option Py.datetime -> bool
     -> exception + FinancialStatement.SectionBalances Categories)
  (AccountType_value : string -> option string)
  (start_date end_date : option Py.datetime) (full_balance : bool)
  (session : Transaction.AccountingSession)
  (config : FinancialStatement.ReportConfig)
  (found : string -> FinancialStatement.SectionBalances Categories) :
  well_formed config ->
  (forall account_type,
      In account_type (all_account_types config) ->
      section_balances session [account_type] start_date end_date full_balance
      = inr (found account_type)
      /\ exists label, AccountType_value account_type = Some label) ->
  exists self',
    FinancialStatement._get_sections Categories section_balances
      AccountType_value config start_date end_date full_balance
      (FinancialStatement.__init__ Categories session config)
    = FinancialStatement.Done Categories self'
    /\ forall section content,
         In (section, content) (FinancialStatement.config_sections config) ->
         exists total,
           PyDict.get (FinancialStatement.totals Categories self') section
           = Some total
           /\ (total
               == Py.sum
                    (map
                       (fun a => FinancialStatement.closing Categories (found a))
                       (FinancialStatement.account_types content)))%Q.
Proof.
  intros Hconfig Hfound.
  destruct (get_sections_after_init Categories section_balances
              AccountType_value start_date end_date full_balance session
              config found Hconfig Hfound)
    as (self' & Hrun & (Hnames & _) & Htotals & _).
  exists self'. split; [exact Hrun|].
  intros section content Hin.
  assert (Hkey : In section
                   (PyDict.keys (FinancialStatement.config_sections config))).
  { change section with (fst (section, content)). apply in_map. exact Hin. }
  destruct (Hnames section Hkey) as (_ & _ & total & Htotal).
  exists total. split; [exact Htotal|].
  pose proof (Htotals section content Hin) as Hsum.
  unfold total_at in Hsum. rewrite Htotal in Hsum. exact Hsum.
Qed.

(** X21: under the same conditions the numbers [_get_sections] leaves under
    ["debit"] and ["credit"] split the closing balances by sign: the first
    is not negative, the second is not positive, and together they are the
    sum of all the closing balances. *)
Theorem get_sections_debit_credit (Categories : Type)
  (section_balances :
     Transaction.AccountingSession -> list string -> option Py.datetime
     -> option Py.datetime -> bool
     -> exception + FinancialStatement.SectionBalances Categories)
  (AccountType_value : string -> option string)
  (start_date end_date : option Py.datetime) (full_balance : bool)
  (session : Transaction.AccountingSession)
  (config : FinancialStatement.ReportConfig)
  (found : string -> FinancialStatement.SectionBalances Categories) :
  well_formed config ->
  (forall account_type,
      In account_type (all_account_types config) ->
      section_balances session [account_type] start_date end_date full_balance
      = inr (found account_type)
      /\ exists label, AccountType_value account_type = Some label) ->
  exists self' debit credit,
    FinancialStatement._get_sections Categories section_balances
      AccountType_value config start_date end_date full_balance
      (FinancialStatement.__init__ Categories session config)
    = FinancialStatement.Done Categories self'
    /\ PyDict.get (FinancialStatement.balances Categories self') "debit"
       = Some (FinancialStatement.Amount debit)
    /\ PyDict.get (FinancialStatement.balances Categories self') "credit"
       = Some (FinancialStatement.Amount credit)
    /\ (0 <= debit)%Q
    /\ (credit <= 0)%Q
    /\ (debit + credit
        == Py.sum
             (map (fun a => FinancialStatement.closing Categories (found a))
                (all_account_types config)))%Q.
Proof.
  intros Hconfig Hfound.
  destruct (get_sections_after_init Categories section_balances
              AccountType_value start_date end_date full_balance session
              config found Hconfig Hfound)
    as (self' & Hrun & (_ & [debit Hdebit] & [credit Hcredit]) & _ & Hd & Hc).
  unfold side_at in Hd, Hc. rewrite Hdebit in Hd. rewrite Hcredit in Hc.
  destruct (sum_parts
              (fun a => FinancialStatement.closing Categories (found a))
              (all_account_types config)) as (Hsum & Hpos & Hneg).
  exists self', debit, credit.
  split; [exact Hrun|]. split; [exact Hdebit|]. split; [exact Hcredit|].
  split; [rewrite Hd; exact Hpos|]. split; [rewrite Hc; exact Hneg|].
  rewrite Hd, Hc. exact Hsum.
Qed.

Lemma sample_report_well_formed : well_formed Sample.report.
Proof.
  unfold well_formed. simpl. repeat split.
  - repeat constructor; simpl; intuition discriminate.
  - repeat constructor; simpl; intuition discriminate.
  - intuition discriminate.
  - intuition discriminate.
Defined.

Lemma sample_report_resolves (account_type : string) :
  In account_type (all_account_types Sample.report) ->
  Sample.report_section_balances Sample.session [account_type] None None true
  = inr (Sample.report_found account_type)
  /\ exists label, Sample.report_account_type_value account_type = Some label.
Proof.
  intros Hin. split; [reflexivity|].
  simpl in Hin.
  destruct Hin as [<-|[<-|[<-|[<-|[]]]]]; eexists; reflexivity.
Defined.

Lemma get_sections_totals_witness :
  well_formed Sample.report
  /\ exists self',
       FinancialStatement._get_sections unit Sample.report_section_balances
         Sample.report_account_type_value Sample.report None None true
         (FinancialStatement.__init__ unit Sample.session Sample.report)
       = FinancialStatement.Done unit self'
       /\ forall section content,
            In (section, content)
              (FinancialStatement.config_sections Sample.report) ->
            exists total,
              PyDict.get (FinancialStatement.totals unit self') section
              = Some total
              /\ (total
                  == Py.sum
                       (map
                          (fun a =>
                             FinancialStatement.closing unit
                               (Sample.report_found a))
                          (FinancialStatement.account_types content)))%Q.
Proof.
  split; [exact sample_report_well_formed|].
  exact (get_sections_totals unit Sample.report_section_balances
           Sample.report_account_type_value None None true Sample.session
           Sample.report Sample.report_found sample_report_well_formed
           sample_report_resolves).
Defined.

Lemma get_sections_debit_credit_witness :
  well_formed Sample.report
  /\ exists self' debit credit,
       FinancialStatement._get_sections unit Sample.report_section_balances
         Sample.report_account_type_value Sample.report None None true
         (FinancialStatement.__init__ unit Sample.session Sample.report)
       = FinancialStatement.Done unit self'
       /\ PyDict.get (FinancialStatement.balances unit self') "debit"
          = Some (FinancialStatement.Amount debit)
       /\ PyDict.get (FinancialStatement.balances unit self') "credit"
          = Some (FinancialStatement.Amount credit)
       /\ (0 <= debit)%Q
       /\ (credit <= 0)%Q
       /\ (debit + credit
           == Py.sum
                (map
                   (fun a =>
                      FinancialStatement.closing unit (Sample.report_found a))
                   (all_account_types Sample.report)))%Q.
Proof.
  split; [exact sample_report_well_formed|].
  exact (get_sections_debit_credit unit Sample.report_section_balances
           Sample.report_account_type_value None None true Sample.session
           Sample.report Sample.report_found sample_report_well_formed
           sample_report_resolves).
Defined.

(** The statement of the sample report: -220 of revenue, 105 of expenses,
    and the section dictionaries without the account type whose closing
    balance is zero. *)
Example sample_report_sections :
  match
    FinancialStatement._get_sections unit Sample.report_section_balances
      Sample.report_account_type_value Sample.report None None true
      (FinancialStatement.__init__ unit Sample.session Sample.report)
  with
  | FinancialStatement.Done _ self' =>
      map (fun item => (fst item, Qred (snd item)))
        (FinancialStatement.totals unit self')
      = [("OPERATING_REVENUES"%string, -220); 
         ("NON_OPERATING_EXPENSES"%string, 105)]%Q
      /\ PyDict.get (FinancialStatement.balances unit self')
           "NON_OPERATING_EXPENSES"
         = Some
             (FinancialStatement.Breakdown
                [("Direct Expense"%string, 65); 
                 ("Overhead Expense"%string, 40)]%Q)
      /\ Qred (side_at self' "debit") = 105%Q
      /\ Qred (side_at self' "credit") = (-220)%Q
  | FinancialStatement.Failed _ _ _ => False
  end.
Proof. vm_compute. repeat split. Qed.
